(** * DWLR groundwater dashboard (app1.py): model and verified properties

    The dashboard is one Python script built on pandas.  This development
    embeds its two helper functions, [normalize_df] and [calc_stats], and the
    display panels of the script body, and proves or refutes the properties
    the specification states about them.

    Modelling conventions:
    - a Python [str] is the list of its Unicode code points;
    - a Python [float] (and a cell of a float64 column) is a binary64
      primitive float, whose single [nan] is pandas' missing value;
    - a Python [int] is an unbounded [Z];
    - a DataFrame is an object on a heap, reached through a reference, so
      that in-place updates and aliasing are visible;
    - the depth and coordinate columns read by the panels are float64
      columns, the District column holds text and the Year column holds
      integers, with missing cells in either;
    - pandas' [mean] and [median] aggregations are parameters of the model:
      their summation order is the library's business and no property below
      depends on it; the one fact a property needs of them (the mean of no
      cell is missing) is a hypothesis of that property;
    - [int] refuses a string of more than 4300 digits, the default limit of
      CPython 3.11 and later;
    - [folium.Map] refuses a location with a NaN: the exception ends the
      render pass. *)

From Stdlib Require Import ZArith NArith Lia Ascii String Floats Zpower.
From stdpp Require Import base option list sorting gmap.

Local Open Scope Z_scope.

(** ** Python strings *)

Module PyStr.

Definition codepoint := N.
Definition pystr := list codepoint.

(** A literal of the source, written in ASCII. *)
Definition lit (s : string) : pystr :=
  List.map N_of_ascii (list_ascii_of_string s).

Definition in_range (c : codepoint) (r : N * N) : bool :=
  (N.leb (fst r) c && N.leb c (snd r))%bool.

(** Code points with Numeric_Type=Decimal (Unicode 14.0, the database of
    CPython 3.11): runs of ten (or of fifty, for the mathematical digits)
    that start at a zero digit. These are the characters [int()] reads. *)
Definition decimal_ranges : list (N * N) :=
  [ (48, 57); (1632, 1641); (1776, 1785); (1984, 1993); (2406, 2415);
    (2534, 2543); (2662, 2671); (2790, 2799); (2918, 2927); (3046, 3055);
    (3174, 3183); (3302, 3311); (3430, 3439); (3558, 3567); (3664, 3673);
    (3792, 3801); (3872, 3881); (4160, 4169); (4240, 4249); (6112, 6121);
    (6160, 6169); (6470, 6479); (6608, 6617); (6784, 6793); (6800, 6809);
    (6992, 7001); (7088, 7097); (7232, 7241); (7248, 7257); (42528, 42537);
    (43216, 43225); (43264, 43273); (43472, 43481); (43504, 43513);
    (43600, 43609); (44016, 44025); (65296, 65305); (66720, 66729);
    (68912, 68921); (69734, 69743); (69872, 69881); (69942, 69951);
    (70096, 70105); (70384, 70393); (70736, 70745); (70864, 70873);
    (71248, 71257); (71360, 71369); (71472, 71481); (71904, 71913);
    (72016, 72025); (72784, 72793); (73040, 73049); (73120, 73129);
    (92768, 92777); (92864, 92873); (93008, 93017); (120782, 120831);
    (123200, 123209); (123632, 123641); (125264, 125273);
    (130032, 130041) ]%N.

(** Code points with Numeric_Type=Digit: superscripts, subscripts, circled
    and dingbat digits and the like. [str.isdigit] accepts them, [int()]
    does not. *)
Definition other_digit_ranges : list (N * N) :=
  [ (178, 179); (185, 185); (4969, 4977); (6618, 6618); (8304, 8304);
    (8308, 8313); (8320, 8329); (9312, 9320); (9332, 9340); (9352, 9360);
    (9450, 9450); (9461, 9469); (9471, 9471); (10102, 10110);
    (10112, 10120); (10122, 10130); (68160, 68163); (69216, 69224);
    (69714, 69722); (127232, 127242) ]%N.

(** [c.isdecimal()] *)
Definition isdecimal (c : codepoint) : bool :=
  existsb (in_range c) decimal_ranges.

(** [c.isdigit()] *)
Definition isdigit (c : codepoint) : bool :=
  (isdecimal c || existsb (in_range c) other_digit_ranges)%bool.

(** The value [int()] gives a decimal character. *)
Definition decimal_value (c : codepoint) : option Z :=
  match List.find (in_range c) decimal_ranges with
  | Some r => Some (Z.of_N ((c - fst r) mod 10))
  | None => None
  end.

(** [int(s)] for a string [s] that holds no sign, space or underscore (the
    digit filter of [normalize_df] leaves none): the base-ten number of its
    decimal characters, and [None] (a ValueError) when [s] is empty, holds a
    character that is not decimal, or is longer than the interpreter's
    limit on the digits of a converted string. *)
Fixpoint int_digits (acc : Z) (s : pystr) : option Z :=
  match s with
  | [] => Some acc
  | c :: s' =>
      match decimal_value c with
      | Some d => int_digits (10 * acc + d) s'
      | None => None
      end
  end.

(** The default of [sys.int_max_str_digits] in CPython 3.11: [int] refuses
    a string of more digits. *)
Definition int_max_str_digits : nat := 4300.

Definition int (s : pystr) : option Z :=
  match s with
  | [] => None
  | _ => if (length s <=? int_max_str_digits)%nat
         then int_digits 0 s
         else None
  end.

(** Unicode white space, what [str.strip()] removes at both ends. *)
Definition space_ranges : list (N * N) :=
  [ (9, 13); (28, 32); (133, 133); (160, 160); (5760, 5760); (8192, 8202);
    (8232, 8233); (8239, 8239); (8287, 8287); (12288, 12288) ]%N.

Definition isspace (c : codepoint) : bool :=
  existsb (in_range c) space_ranges.

Fixpoint lstrip (s : pystr) : pystr :=
  match s with
  | c :: s' => if isspace c then lstrip s' else s
  | [] => []
  end.

Definition rstrip (s : pystr) : pystr := rev (lstrip (rev s)).

(** [s.strip()] *)
Definition strip (s : pystr) : pystr := rstrip (lstrip s).

(** [s.replace(old, new)] for one-character [old] and [new]. *)
Definition replace_char (old new : codepoint) (s : pystr) : pystr :=
  List.map (fun c => if N.eqb c old then new else c) s.


Definition eqb (s t : pystr) : bool := bool_decide (s = t).

(** Python's order on strings: lexicographic on code points. *)
Fixpoint compare (s t : pystr) : comparison :=
  match s, t with
  | [], [] => Eq
  | [], _ :: _ => Lt
  | _ :: _, [] => Gt
  | c :: s', d :: t' =>
      match N.compare c d with
      | Eq => compare s' t'
      | o => o
      end
  end.

End PyStr.

Export PyStr.

(** ** Cells, frames and the heap of frames *)

(** A cell of a frame: a Python object read from a CSV file or stored by the
    script. *)
Inductive value :=
| VNone
| VBool (b : bool)
| VInt (z : Z)
| VFloat (f : float)
| VStr (s : pystr).

(** A frame: the length of its index and its columns in order, each a label
    and the cells under it. Labels may repeat, as pandas allows. *)
Record DataFrame := { index_len : nat; data : list (pystr * list value) }.

Definition labels (d : DataFrame) : list pystr := (data d).*1.

(** [key in df.columns] *)
Definition has_label (key : pystr) (d : DataFrame) : bool :=
  bool_decide (key ∈ labels d).

(** The columns stored under a label. *)
Definition columns_of (key : pystr) (d : DataFrame) : list (list value) :=
  (List.filter (fun c => PyStr.eqb (fst c) key) (data d)).*2.

(** [df.columns = new] on a frame with as many columns as [new] has labels. *)
Definition relabel (new : list pystr) (d : DataFrame) : DataFrame :=
  {| index_len := index_len d; data := zip new (data d).*2 |}.

(** [df[key] = col]: every column labelled [key] is replaced; a new column is
    appended when there is none. *)
Definition set_column (key : pystr) (col : list value) (d : DataFrame)
  : DataFrame :=
  {| index_len := index_len d;
     data := if has_label key d
             then List.map (fun c => if PyStr.eqb (fst c) key
                                     then (key, col) else c) (data d)
             else data d ++ [(key, col)] |}.

(** [d.get(k, dflt)] on a dict with string keys: no object other than a
    string equals a key. *)
Definition dict_get {V} (d : gmap pystr V) (k : value) (dflt : V) : V :=
  match k with
  | VStr s => default dflt (d !! s)
  | _ => dflt
  end.

Definition ref := nat.

Inductive exn :=
| ValueError      (* int() of a string that is no decimal numeral;
                     a label list of the wrong length; a map location with
                     a NaN *)
| KeyError        (* a label that is not in the frame *)
| NotASeries      (* df[key] is a frame, the label being repeated: the
                     caller's map-and-assign fails on it *)
| Dangling.       (* a reference to no object: no Python name is one *)

Inductive outcome (A : Type) :=
| Returns (a : A) (h : gmap ref DataFrame)
| Raises (e : exn).
Arguments Returns {A} a h.
Arguments Raises {A} e.

(** A computation on the heap of frames. What the heap holds after an
    exception is left out of the model. *)
Definition M (A : Type) : Type := gmap ref DataFrame -> outcome A.

#[global] Instance M_ret : MRet M := fun A a h => Returns a h.
#[global] Instance M_bind : MBind M := fun A B f m h =>
  match m h with
  | Returns a h' => f a h'
  | Raises e => Raises e
  end.

Definition raise {A} (e : exn) : M A := fun _ => Raises e.

Definition read (df : ref) : M DataFrame := fun h =>
  match h !! df with
  | Some d => Returns d h
  | None => Raises Dangling
  end.

Definition write (df : ref) (d : DataFrame) : M unit := fun h =>
  Returns tt (<[df := d]> h).

Definition from_option {A} (e : exn) (o : option A) : M A :=
  match o with
  | Some a => mret a
  | None => raise e
  end.

Module pd.

(** [df.columns] *)
Definition get_columns (df : ref) : M (list pystr) :=
  d ← read df; mret (labels d).

(** [df.columns = new] *)
Definition set_columns (df : ref) (new : list pystr) : M unit :=
  d ← read df;
  if bool_decide (length new = length (data d))
  then write df (relabel new d)
  else raise ValueError.

(** [df.rename(columns=m, inplace=True)] *)
Definition rename (df : ref) (m : gmap pystr pystr) : M unit :=
  d ← read df;
  write df (relabel ((fun c => default c (m !! c)) <$> labels d) d).

(** [df[key] = col] for a Series [col] on the index of [df] *)
Definition setitem (df : ref) (key : pystr) (col : list value) : M unit :=
  d ← read df; write df (set_column key col d).

(** [df[key] = v] for a scalar [v] *)
Definition setitem_scalar (df : ref) (key : pystr) (v : value) : M unit :=
  d ← read df; write df (set_column key (replicate (index_len d) v) d).

(** [key in df.columns] *)
Definition contains (df : ref) (key : pystr) : M bool :=
  d ← read df; mret (has_label key d).

(** [df[key]] as a Series *)
Definition getitem (df : ref) (key : pystr) : M (list value) :=
  d ← read df;
  match columns_of key d with
  | [] => raise KeyError
  | [col] => mret col
  | _ => raise NotASeries
  end.

End pd.

(** ** The helper functions of the script *)

#[local] Set Warnings "-inexact-float".

(** Approximate centroids of the Tamil Nadu districts. *)
Definition district_coords : gmap pystr (float * float) :=
  list_to_map
    [ (lit "Chennai", (13.0827, 80.2707)%float);
      (lit "Coimbatore", (11.0168, 76.9558)%float);
      (lit "Madurai", (9.9252, 78.1198)%float);
      (lit "Tiruchirappalli", (10.7905, 78.7047)%float);
      (lit "Salem", (11.6643, 78.1460)%float);
      (lit "Erode", (11.3410, 77.7172)%float);
      (lit "Vellore", (12.9165, 79.1325)%float);
      (lit "Tirunelveli", (8.7139, 77.7567)%float);
      (lit "Thoothukudi", (8.7642, 78.1348)%float);
      (lit "Dindigul", (10.3624, 77.9695)%float);
      (lit "Thanjavur", (10.7870, 79.1378)%float);
      (lit "Kancheepuram", (12.8342, 79.7036)%float);
      (lit "Cuddalore", (11.7480, 79.7714)%float);
      (lit "Nagapattinam", (10.7650, 79.8449)%float);
      (lit "Ramanathapuram", (9.3639, 78.8395)%float);
      (lit "Krishnagiri", (12.5186, 78.2137)%float);
      (lit "Dharmapuri", (12.1357, 78.1582)%float);
      (lit "Villupuram", (11.9400, 79.5000)%float);
      (lit "Namakkal", (11.2202, 78.1652)%float);
      (lit "Karur", (10.9601, 78.0766)%float);
      (lit "Nilgiris", (11.4916, 76.7337)%float);
      (lit "Kanyakumari", (8.0883, 77.5385)%float);
      (lit "Tiruvallur", (13.1437, 79.9089)%float);
      (lit "Sivaganga", (9.8433, 78.4800)%float);
      (lit "Virudhunagar", (9.5680, 77.9624)%float);
      (lit "Ariyalur", (11.1381, 79.0786)%float);
      (lit "Perambalur", (11.2342, 78.8803)%float);
      (lit "Pudukkottai", (10.3797, 78.8208)%float);
      (lit "Tiruvarur", (10.7720, 79.6368)%float);
      (lit "Tiruppur", (11.1085, 77.3411)%float) ].

Definition default_point : float * float := (11.0, 78.0)%float.

Definition rename_map : gmap pystr pystr :=
  list_to_map
    [ (lit "No of wells Monitored", lit "Wells_Monitored");
      (lit "S No", lit "SNo") ].

(** The header clean-up of the first line: [.str.strip()] and then
    [.str.replace("\n", " ")]. *)
Definition clean_label (c : pystr) : pystr := replace_char 10%N 32%N (strip c).

Definition latitude_of (d : value) : value :=
  VFloat (dict_get district_coords d default_point).1.

Definition longitude_of (d : value) : value :=
  VFloat (dict_get district_coords d default_point).2.

(** [normalize_df(df, filename)]: every statement updates the object [df]
    refers to, and the reference itself is returned. *)
Definition normalize_df (df : ref) (filename : pystr) : M ref :=
  cols ← pd.get_columns df;
  pd.set_columns df (clean_label <$> cols);;
  pd.rename df rename_map;;
  let year := List.filter isdigit filename in
  (match year with
   | _ :: _ =>
       n ← from_option ValueError (PyStr.int year);
       pd.setitem_scalar df (lit "Year") (VInt n)
   | [] => pd.setitem_scalar df (lit "Year") VNone
   end);;
  has_lat ← pd.contains df (lit "Latitude");
  has_lon ← pd.contains df (lit "Longitude");
  (if (negb has_lat || negb has_lon)%bool
   then
     d ← pd.getitem df (lit "District");
     pd.setitem df (lit "Latitude") (latitude_of <$> d);;
     d ← pd.getitem df (lit "District");
     pd.setitem df (lit "Longitude") (longitude_of <$> d)
   else mret tt);;
  mret df.


(** The upload loop of the script body: every uploaded file, read into a
    frame of its own, is normalized with its name, and the references are
    collected in the order of the files. *)
Fixpoint load_uploads (files : list (ref * pystr)) : M (list ref) :=
  match files with
  | [] => mret []
  | (df, name) :: rest =>
      df ← normalize_df df name;
      dfs ← load_uploads rest;
      mret (df :: dfs)
  end.

(** *** The same function on frames

    What [normalize_df] does to the frame behind its argument, step by step,
    as functions from frames to frames. [normalize_df_run] below proves that
    the heap computation above is exactly this. *)

(** The header a column ends with: cleaned, then renamed. *)
Definition header (c : pystr) : pystr :=
  default (clean_label c) (rename_map !! clean_label c).

Definition normalize_headers (d : DataFrame) : DataFrame :=
  relabel (header <$> labels d) d.

Definition with_year (filename : pystr) (d : DataFrame) : exn + DataFrame :=
  match List.filter isdigit filename with
  | [] => inr (set_column (lit "Year") (replicate (index_len d) VNone) d)
  | year =>
      match PyStr.int year with
      | Some n =>
          inr (set_column (lit "Year") (replicate (index_len d) (VInt n)) d)
      | None => inl ValueError
      end
  end.

(** Whether the coordinates are injected in a frame. *)
Definition lacks_coords (d : DataFrame) : bool :=
  (negb (has_label (lit "Latitude") d)
   || negb (has_label (lit "Longitude") d))%bool.

Definition with_coords (d : DataFrame) : exn + DataFrame :=
  if lacks_coords d
  then match columns_of (lit "District") d with
       | [] => inl KeyError
       | [dist] =>
           inr (set_column (lit "Longitude") (longitude_of <$> dist)
                  (set_column (lit "Latitude") (latitude_of <$> dist) d))
       | _ => inl NotASeries
       end
  else inr d.

Definition normalize_frame (d : DataFrame) (filename : pystr)
  : exn + DataFrame :=
  match with_year filename (normalize_headers d) with
  | inr d' => with_coords d'
  | inl e => inl e
  end.

(** ** The filtered table the panels read *)

Module Reading.
(** One monitored station record. [None] is a missing District or Year. *)
Record t := {
  District : option pystr;
  Year : option Z;
  Minimum : float;
  Maximum : float;
  Latitude : float;
  Longitude : float }.
End Reading.

(** [df_filtered]: all column labels (the depth panel looks for "%" in
    them) and the rows, seen through the columns the panels read. *)
Record Table := { columns : list pystr; rows : list Reading.t }.


(** [DataFrame.groupby(by)] with pandas' defaults: rows with a missing key
    are dropped and the groups come in the order of their keys. *)
Section GroupBy.
Context {R K : Type} (key : R -> option K) (cmp : K -> K -> comparison).

Fixpoint insert_key (k : K) (ks : list K) : list K :=
  match ks with
  | [] => [k]
  | k' :: ks' =>
      match cmp k k' with
      | Lt => k :: ks
      | Eq => ks
      | Gt => k' :: insert_key k ks'
      end
  end.

Definition group_keys (rs : list R) : list K :=
  foldl (fun ks r => match key r with
                     | Some k => insert_key k ks
                     | None => ks
                     end) [] rs.

Definition in_group (k : K) (r : R) : bool :=
  match key r with
  | Some k' => match cmp k' k with Eq => true | _ => false end
  | None => false
  end.

Definition groupby (rs : list R) : list (K * list R) :=
  (fun k => (k, List.filter (in_group k) rs)) <$> group_keys rs.

(** The strict order of the keys. *)
Definition key_lt (a b : K) : Prop := cmp a b = Lt.
End GroupBy.

(** A stable sort, as [sort_values] is on several columns. *)
Section Sort.
Context {A : Type} (le : A -> A -> bool).

Fixpoint insert_sorted (x : A) (l : list A) : list A :=
  match l with
  | [] => [x]
  | y :: l' => if le x y then x :: l else y :: insert_sorted x l'
  end.

Definition sort_by (l : list A) : list A := foldr insert_sorted [] l.
End Sort.

Definition cmp_float (a b : float) : comparison :=
  match (a ?= b)%float with
  | FLt => Lt
  | FGt => Gt
  | FEq | FNotComparable => Eq
  end.

(** The order of the keys (District, Year). *)
Definition cmp_district_year (a b : pystr * Z) : comparison :=
  match PyStr.compare a.1 b.1 with
  | Eq => Z.compare a.2 b.2
  | o => o
  end.

Definition key_district_year (r : Reading.t) : option (pystr * Z) :=
  match Reading.District r, Reading.Year r with
  | Some d, Some y => Some (d, y)
  | _, _ => None
  end.

(** The order of the keys (District, Latitude, Longitude). *)
Definition cmp_station (a b : pystr * float * float) : comparison :=
  match PyStr.compare a.1.1 b.1.1 with
  | Eq => match cmp_float a.1.2 b.1.2 with
          | Eq => cmp_float a.2 b.2
          | o => o
          end
  | o => o
  end.

Definition key_station (r : Reading.t) : option (pystr * float * float) :=
  match Reading.District r with
  | Some d =>
      if (is_nan (Reading.Latitude r) || is_nan (Reading.Longitude r))%bool
      then None
      else Some (d, Reading.Latitude r, Reading.Longitude r)
  | None => None
  end.

(** [Series.max()] and [Series.min()]: missing cells are skipped, and the
    result is missing when every cell is. *)
Definition max_step (acc v : float) : float :=
  if is_nan v then acc
  else if is_nan acc then v
  else if (acc <? v)%float then v else acc.

Definition min_step (acc v : float) : float :=
  if is_nan v then acc
  else if is_nan acc then v
  else if (v <? acc)%float then v else acc.

Definition nanmax (x : list float) : float := foldl max_step nan x.

Definition nanmin (x : list float) : float := foldl min_step nan x.

Module Stats.
Record row := {
  District : pystr;
  Year : Z;
  Mean_Min : float;
  Mean_Max : float;
  Median_Min : float;
  Median_Max : float;
  Range_MinMax : float }.
End Stats.

Module Change.
Record row := {
  District : pystr;
  Year : Z;
  Minimum : float;
  DeltaWL : float }.
End Change.

Module Trend.
Record row := {
  District : pystr;
  Year : Z;
  Minimum : float;
  DeltaWL : float;
  Trend : pystr }.
End Trend.

Module Depth.
Record row := {
  District : pystr;
  Latitude : float;
  Longitude : float;
  Minimum : float }.
End Depth.

(** [folium.CircleMarker(...)]; the popup is kept as the district and the
    depth its f-string formats. *)
Record CircleMarker := {
  location : float * float;
  radius : Z;
  popup : pystr * float;
  color : pystr;
  fill : bool;
  fill_opacity : float }.

Inductive figure :=
| fig_yearly (t : list (Z * float * float))
| fig_delta_year (t : list Change.row)
| fig_depth (melted : list (option pystr * option Z * pystr))
| fig_state (t : list (Z * float * float)).

(** What a panel does, in order: the group-by aggregations it runs and the
    calls that put something on the page. *)
Inductive event :=
| pd_groupby (keys : list pystr)
| st_subheader (title : pystr)
| st_warning (msg : pystr)
| st_info (msg : pystr)
| st_dataframe_stats (t : list Stats.row)
| st_dataframe_trend (t : list Trend.row)
| st_plotly_chart (fig : figure)
| st_folium (center : float * float) (zoom_start : Z)
            (markers : list CircleMarker).

Definition recharge_label : pystr := [11014; 65039; 32]%N ++ lit "Recharge".
Definition decline_label : pystr := [11015; 65039; 32]%N ++ lit "Decline".
Definition stable_label : pystr := [10134; 32]%N ++ lit "Stable".

(** The lambda that labels a DeltaWL. *)
Definition trend (x : float) : pystr :=
  if (0 <? x)%float then recharge_label
  else if (x <? 0)%float then decline_label
  else stable_label.

(** [folium.utilities.validate_location] on a pair of floats: neither is
    NaN. *)
Definition valid_location (loc : float * float) : bool :=
  negb (is_nan loc.1 || is_nan loc.2).

(** The color expression of the marker loop. *)
Definition marker_color (minimum : float) : pystr :=
  if (minimum <? 5)%float then lit "blue" else lit "red".

(** [groupby("District")["Minimum"].diff()] over the rows of the yearly
    table in their order: [last] holds, per district, the Minimum of its
    latest row so far. *)
Fixpoint diff_by_district (last : gmap pystr float)
    (t : list (pystr * Z * float)) : list float :=
  match t with
  | [] => []
  | (d, _, m) :: t' =>
      match last !! d with
      | Some p => (m - p)%float
      | None => nan
      end :: diff_by_district (<[d := m]> last) t'
  end.

(** A row of the yearly table with its DeltaWL cell. *)
Definition change_row (r : pystr * Z * float) (delta : float) : Change.row :=
  {| Change.District := r.1.1;
     Change.Year := r.1.2;
     Change.Minimum := r.2;
     Change.DeltaWL := delta |}.

Definition le_district_year (a b : pystr * Z * float) : bool :=
  match cmp_district_year a.1 b.1 with Gt => false | _ => true end.

Section Analysis.
(** pandas' mean and median of the cells of a float64 column, missing
    cells skipped. *)
Variables mean median : list float -> float.

(** [calc_stats(df)] *)
Definition calc_stats (df : Table) : list Stats.row :=
  (fun g : pystr * Z * list Reading.t =>
     {| Stats.District := g.1.1;
        Stats.Year := g.1.2;
        Stats.Mean_Min := mean (Reading.Minimum <$> g.2);
        Stats.Mean_Max := mean (Reading.Maximum <$> g.2);
        Stats.Median_Min := median (Reading.Minimum <$> g.2);
        Stats.Median_Max := median (Reading.Maximum <$> g.2);
        Stats.Range_MinMax :=
          (let x := Reading.Maximum <$> g.2 in nanmax x - nanmin x)%float
     |}) <$> groupby key_district_year cmp_district_year (rows df).

(** [groupby("Year")[["Minimum", "Maximum"]].mean().reset_index()] *)
Definition yearly_means (df : Table) : list (Z * float * float) :=
  (fun g : Z * list Reading.t =>
     (g.1, mean (Reading.Minimum <$> g.2), mean (Reading.Maximum <$> g.2)))
    <$> groupby Reading.Year Z.compare (rows df).

(** [groupby(["District", "Year"])["Minimum"].mean().reset_index()
      .sort_values(["District", "Year"])] *)
Definition yearly_minimum (df : Table) : list (pystr * Z * float) :=
  sort_by le_district_year
    ((fun g : pystr * Z * list Reading.t =>
        (g.1.1, g.1.2, mean (Reading.Minimum <$> g.2)))
       <$> groupby key_district_year cmp_district_year (rows df)).

(** [yearly_change], with its DeltaWL column. *)
Definition yearly_change (df : Table) : list Change.row :=
  let t := yearly_minimum df in
  zip_with change_row t (diff_by_district ∅ t).

(** [trend_table]: a copy of [yearly_change] with the Trend column. *)
Definition trend_table (df : Table) : list Trend.row :=
  (fun r => {| Trend.District := Change.District r;
               Trend.Year := Change.Year r;
               Trend.Minimum := Change.Minimum r;
               Trend.DeltaWL := Change.DeltaWL r;
               Trend.Trend := trend (Change.DeltaWL r) |})
    <$> yearly_change df.

(** [avg_depth] *)
Definition avg_depth (df : Table) : list Depth.row :=
  (fun g : pystr * float * float * list Reading.t =>
     {| Depth.District := g.1.1.1;
        Depth.Latitude := g.1.1.2;
        Depth.Longitude := g.1.2;
        Depth.Minimum := mean (Reading.Minimum <$> g.2) |})
    <$> groupby key_station cmp_station (rows df).

(** The markers the loop over [avg_depth] adds to the map. *)
Definition markers (df : Table) : list CircleMarker :=
  (fun row => {| location := (Depth.Latitude row, Depth.Longitude row);
                 radius := 6;
                 popup := (Depth.District row, Depth.Minimum row);
                 color := marker_color (Depth.Minimum row);
                 fill := true;
                 fill_opacity := 0.7%float |})
    <$> avg_depth df.

(** *** The panels, in the order of the script *)



Definition recharge_panel (df : Table) : list event :=
  let yearly_change := yearly_change df in
  [ st_subheader (lit "Recharge / Decline Analysis");
    pd_groupby [lit "District"; lit "Year"];
    pd_groupby [lit "District"] ] ++
  if negb (forallb (fun r => is_nan (Change.DeltaWL r)) yearly_change)
  then [ st_dataframe_trend (trend_table df);
         st_plotly_chart (fig_delta_year yearly_change) ]
  else [ st_info ([9888; 65039; 32]%N ++
           lit "Not enough yearly data to calculate recharge/decline.") ].

(** The map panel. [folium.Map] validates its location and raises
    ValueError when a coordinate is NaN; the panel does not catch it, so
    the panel gives what it has done so far and the exception. The markers
    pass the same validation of [folium.CircleMarker]: a station has no
    missing coordinate, the group-by dropping the rows that have. *)
Definition spatial_panel (df : Table) : list event * option exn :=
  let avg := avg_depth df in
  let center :=
    (mean (Depth.Latitude <$> avg), mean (Depth.Longitude <$> avg)) in
  let done_so_far :=
    [ st_subheader (lit "Spatial Comparison of Stations");
      pd_groupby [lit "District"; lit "Latitude"; lit "Longitude"] ] in
  if valid_location center
  then (done_so_far ++ [ st_folium center 7 (markers df) ], None)
  else (done_so_far, Some ValueError).




End Analysis.

(** A mean to run the model on examples: the sum from left to right over
    the count, missing cells skipped. pandas may differ from it in the last
    bit of a long sum. *)
Definition simple_mean (x : list float) : float :=
  let present := List.filter (fun v => negb (is_nan v)) x in
  match present with
  | [] => nan
  | _ => (foldl PrimFloat.add 0 present / of_uint63 (Uint63.of_Z (Z.of_nat (length present))))%float
  end.


(** ** The sidebar filters *)

(** [sorted(df_all["Year"].dropna().unique())]: the options of the year
    selector, and its default selection. *)
Definition year_options (df_all : Table) : list Z :=
  group_keys Reading.Year Z.compare (rows df_all).

(** [sorted(df_all["District"].dropna().unique())] *)
Definition district_options (df_all : Table) : list pystr :=
  group_keys Reading.District PyStr.compare (rows df_all).

(** [Series.isin(values)] on one cell, for values that are all present: a
    missing cell is in none. *)
Definition isin {A} `{EqDecision A} (values : list A) (cell : option A)
  : bool :=
  match cell with
  | Some v => bool_decide (v ∈ values)
  | None => false
  end.

(** [df_all[df_all["Year"].isin(selected_years) &
            df_all["District"].isin(selected_districts)]] *)
Definition df_filtered (selected_years : list Z)
    (selected_districts : list pystr) (df_all : Table) : Table :=
  {| columns := columns df_all;
     rows := List.filter
               (fun r => (isin selected_years (Reading.Year r)
                          && isin selected_districts (Reading.District r))%bool)
               (rows df_all) |}.

(** ** The vocabulary of the properties *)

(** The rows of a district in a year. *)
Definition rows_of (df : Table) (d : pystr) (y : Z) : list Reading.t :=
  List.filter (fun r => bool_decide (Reading.District r = Some d /\
                                     Reading.Year r = Some y)) (rows df).

(** A year is present for a district when a row has both. *)
Definition present (df : Table) (d : pystr) (y : Z) : Prop :=
  exists r, r ∈ rows df /\ Reading.District r = Some d /\
            Reading.Year r = Some y.

(** The mean Minimum of a district in a year. *)
Definition mean_minimum (mean : list float -> float) (df : Table)
    (d : pystr) (y : Z) : float :=
  mean (Reading.Minimum <$> rows_of df d y).

(** The number a list of digits writes in base ten, most significant digit
    first: each digit times the power of ten of its place. *)
Fixpoint base_ten (ds : list Z) : Z :=
  match ds with
  | [] => 0
  | d :: ds' => d * 10 ^ Z.of_nat (length ds') + base_ten ds'
  end.

(** The digits a string of decimal characters writes. *)
Definition writes_digits (s : pystr) (ds : list Z) : Prop :=
  Forall2 (fun c d => decimal_value c = Some d) s ds.

(** A filename whose digit characters [int] can read: all of them decimal,
    and no more of them than the limit. *)
Definition year_readable (filename : pystr) : bool :=
  let year := List.filter isdigit filename in
  (forallb isdecimal year && (length year <=? int_max_str_digits)%nat)%bool.




(** The rows of a station: those of the district at the coordinates. *)
Definition station_rows (df : Table) (d : pystr) (lat lon : float)
    : list Reading.t :=
  List.filter
    (fun r => bool_decide (Reading.District r = Some d) &&
              (Reading.Latitude r =? lat)%float &&
              (Reading.Longitude r =? lon)%float)
    (rows df).

(** ** Sample inputs *)

(** A file without coordinates; "Atlantis" is no key of the table. *)
Definition sample_frame : DataFrame :=
  {| index_len := 2;
     data := [ (lit "District", [VStr (lit "Chennai"); VStr (lit "Atlantis")]);
               (lit "Minimum", [VFloat 4; VFloat 3]);
               (lit "Maximum", [VFloat 6; VFloat 5]) ] |}.



(** A file with a Latitude column and no Longitude column. *)
Definition latitude_only_frame : DataFrame :=
  {| index_len := 2;
     data := [ (lit "District", [VStr (lit "Chennai"); VStr (lit "Salem")]);
               (lit "Latitude", [VFloat 13.5; VFloat 11.5]);
               (lit "Minimum", [VFloat 4; VFloat 3]) ] |}.

(** The heap with one frame, at reference 0. *)
Definition heap_of (d : DataFrame) : gmap ref DataFrame := {[ 0%nat := d ]}.

(** "levels²021.csv": the second digit is U+00B2, superscript two. *)
Definition superscript_filename : pystr :=
  lit "levels" ++ [178%N] ++ lit "021.csv".

Definition sample_filename : pystr := lit "levels2021.csv".

(** The heap a computation ends with; the empty heap if it raises. *)
Definition heap_after {A} (o : outcome A) : gmap ref DataFrame :=
  match o with
  | Returns _ h => h
  | Raises _ => ∅
  end.


Definition station (d : string) (y : Z) (minimum maximum : float)
  : Reading.t :=
  {| Reading.District := Some (lit d);
     Reading.Year := Some y;
     Reading.Minimum := minimum;
     Reading.Maximum := maximum;
     Reading.Latitude := (dict_get district_coords (VStr (lit d))
                            default_point).1;
     Reading.Longitude := (dict_get district_coords (VStr (lit d))
                             default_point).2 |}.

Definition sample_columns : list pystr :=
  [ lit "District"; lit "Minimum"; lit "Maximum"; lit "Year";
    lit "Latitude"; lit "Longitude" ].

(** Two years of Chennai and one of Salem. *)
Definition sample_table : Table :=
  {| columns := sample_columns;
     rows := [ station "Chennai" 2021 4 6; station "Chennai" 2021 3 5;
               station "Salem" 2021 7 9; station "Chennai" 2020 3 8 ] |}.



(** The first Chennai row of the trend table over [sample_table]: 2020 has
    no earlier year. *)
Definition first_year_trend_row : Trend.row :=
  {| Trend.District := lit "Chennai"; Trend.Year := 2020;
     Trend.Minimum := 3; Trend.DeltaWL := nan;
     Trend.Trend := stable_label |}.

(** The marker of Chennai over [sample_table]: mean Minimum 10/3. *)
Definition chennai_marker : CircleMarker :=
  {| location := (13.0827, 80.2707)%float;
     radius := 6;
     popup := (lit "Chennai", simple_mean [4; 3; 3]%float);
     color := lit "blue";
     fill := true;
     fill_opacity := 0.7%float |}.

(** The centre of the map over [sample_table]. *)
Definition sample_center : float * float :=
  (simple_mean
     (Depth.Latitude <$> avg_depth simple_mean sample_table),
   simple_mean
     (Depth.Longitude <$> avg_depth simple_mean sample_table)).

(** A file with neither coordinates nor a District column. *)
Definition no_district_frame : DataFrame :=
  {| index_len := 1;
     data := [ (lit "Station", [VStr (lit "W-17")]);
               (lit "Minimum", [VFloat 4]) ] |}.

(** A file with both coordinate columns, and headers to clean. *)
Definition located_frame : DataFrame :=
  {| index_len := 1;
     data := [ (lit " District ", [VStr (lit "Chennai")]);
               (lit "S No", [VInt 1]);
               (lit "Latitude", [VFloat 13.5]);
               (lit "Longitude", [VFloat 80.5]) ] |}.

(** A table with a row of a file whose name holds no digit (no Year), and a
    row without District. *)
Definition ragged_table : Table :=
  {| columns := sample_columns;
     rows := [ station "Chennai" 2021 4 6;
               {| Reading.District := Some (lit "Salem");
                  Reading.Year := None;
                  Reading.Minimum := 7; Reading.Maximum := 9;
                  Reading.Latitude := 11.6643; Reading.Longitude := 78.146 |};
               {| Reading.District := None;
                  Reading.Year := Some 2021;
                  Reading.Minimum := 2; Reading.Maximum := 3;
                  Reading.Latitude := nan; Reading.Longitude := nan |} ] |}.

(** One year for each of two districts. *)
Definition single_year_table : Table :=
  {| columns := sample_columns;
     rows := [ station "Chennai" 2021 4 6; station "Salem" 2020 7 9;
               station "Chennai" 2021 3 5 ] |}.

(** Two uploads on one heap: a file with a good name and one whose name
    holds a superscript digit. *)
Definition two_uploads : gmap ref DataFrame :=
  <[1%nat := latitude_only_frame]> (heap_of sample_frame).

(** The frame [normalize_frame] gives, and the frame itself when it
    raises. *)
Definition normalized_or_same (d : DataFrame) (name : pystr) : DataFrame :=
  match normalize_frame d name with
  | inr d' => d'
  | inl _ => d
  end.

(** * Properties *)

(** ** Running [normalize_df] *)

Lemma bind_returns {A B} (m : M A) (f : A -> M B) h0 h1 a :
  m h0 = Returns a h1 -> (m ≫= f) h0 = f a h1.
Proof. intros E. unfold mbind, M_bind. by rewrite E. Qed.

Lemma bind_raises {A B} (m : M A) (f : A -> M B) h0 e :
  m h0 = Raises e -> (m ≫= f) h0 = Raises e.
Proof. intros E. unfold mbind, M_bind. by rewrite E. Qed.

Lemma bind_assoc {A B C} (m : M A) (f : A -> M B) (g : B -> M C) h0 :
  ((m ≫= f) ≫= g) h0 = (m ≫= fun a => f a ≫= g) h0.
Proof. unfold mbind, M_bind. by destruct (m h0). Qed.

Lemma run_read h df d : h !! df = Some d -> read df h = Returns d h.
Proof. intros E. unfold read. by rewrite E. Qed.

(** An in-place update: read the object, write it back changed. *)
Lemma run_update h df d (f : DataFrame -> DataFrame) :
  h !! df = Some d ->
  (x ← read df; write df (f x)) h = Returns tt (<[df := f d]> h).
Proof. intros E. by rewrite (bind_returns _ _ _ _ _ (run_read _ _ _ E)). Qed.

Lemma run_get_columns h df d :
  h !! df = Some d -> pd.get_columns df h = Returns (labels d) h.
Proof.
  intros E. unfold pd.get_columns.
  by rewrite (bind_returns _ _ _ _ _ (run_read _ _ _ E)).
Qed.

Lemma run_set_columns h df d new :
  h !! df = Some d -> length new = length (data d) ->
  pd.set_columns df new h = Returns tt (<[df := relabel new d]> h).
Proof.
  intros E L. unfold pd.set_columns.
  rewrite (bind_returns _ _ _ _ _ (run_read _ _ _ E)).
  by rewrite bool_decide_eq_true_2.
Qed.

Lemma run_rename h df d m :
  h !! df = Some d ->
  pd.rename df m h =
  Returns tt (<[df := relabel ((fun c => default c (m !! c)) <$> labels d) d]> h).
Proof.
  intros E.
  by apply (run_update h df d
       (fun x => relabel ((fun c => default c (m !! c)) <$> labels x) x)).
Qed.

Lemma run_setitem h df d key col :
  h !! df = Some d ->
  pd.setitem df key col h = Returns tt (<[df := set_column key col d]> h).
Proof. intros E. by apply (run_update h df d). Qed.

Lemma run_setitem_scalar h df d key v :
  h !! df = Some d ->
  pd.setitem_scalar df key v h =
  Returns tt (<[df := set_column key (replicate (index_len d) v) d]> h).
Proof.
  intros E.
  by apply (run_update h df d
              (fun x => set_column key (replicate (index_len x) v) x)).
Qed.

Lemma run_contains h df d key :
  h !! df = Some d -> pd.contains df key h = Returns (has_label key d) h.
Proof.
  intros E. unfold pd.contains.
  by rewrite (bind_returns _ _ _ _ _ (run_read _ _ _ E)).
Qed.

Lemma run_getitem h df d key :
  h !! df = Some d ->
  pd.getitem df key h =
  match columns_of key d with
  | [] => Raises KeyError
  | [col] => Returns col h
  | _ => Raises NotASeries
  end.
Proof.
  intros E. unfold pd.getitem.
  rewrite (bind_returns _ _ _ _ _ (run_read _ _ _ E)).
  by destruct (columns_of key d) as [|? []].
Qed.

(** ** Frames: labels and columns *)

Lemma relabel_labels new d :
  length new = length (data d) -> labels (relabel new d) = new.
Proof.
  intros L. unfold labels, relabel. simpl. apply fst_zip.
  rewrite length_fmap. lia.
Qed.

Lemma relabel_relabel new new' d :
  length new = length (data d) ->
  relabel new' (relabel new d) = relabel new' d.
Proof.
  intros L. unfold relabel. simpl. f_equal. f_equal. apply snd_zip.
  rewrite length_fmap. lia.
Qed.

Lemma normalize_headers_two_steps d :
  let d1 := relabel (clean_label <$> labels d) d in
  relabel ((fun c => default c (rename_map !! c)) <$> labels d1) d1
  = normalize_headers d.
Proof.
  assert (length (clean_label <$> labels d) = length (data d)) as L
    by (unfold labels; by rewrite !length_fmap).
  simpl. rewrite relabel_labels, relabel_relabel by done.
  unfold normalize_headers. f_equal. by rewrite <- list_fmap_compose.
Qed.

Lemma eqb_true s t : PyStr.eqb s t = true <-> s = t.
Proof. unfold PyStr.eqb. apply bool_decide_eq_true. Qed.

Lemma eqb_false s t : PyStr.eqb s t = false <-> s <> t.
Proof. unfold PyStr.eqb. apply bool_decide_eq_false. Qed.

Lemma has_label_true key d : has_label key d = true <-> key ∈ labels d.
Proof. unfold has_label. apply bool_decide_eq_true. Qed.

Lemma has_label_false key d : has_label key d = false <-> key ∉ labels d.
Proof. unfold has_label. apply bool_decide_eq_false. Qed.

Lemma replace_column_labels key col (cs : list (pystr * list value)) :
  (List.map (fun c => if PyStr.eqb c.1 key then (key, col) else c) cs).*1
  = cs.*1.
Proof.
  induction cs as [|[l c] cs IH]; [done|]. simpl. f_equal; [|exact IH].
  destruct (PyStr.eqb l key) eqn:E; [|done]. by apply eqb_true in E.
Qed.

(** Assigning a column keeps the labels, or appends the new one. *)
Lemma set_column_labels key col d :
  labels (set_column key col d)
  = if has_label key d then labels d else labels d ++ [key].
Proof.
  unfold labels at 1, set_column. simpl. destruct (has_label key d).
  - apply replace_column_labels.
  - unfold labels. by rewrite fmap_app.
Qed.

Lemma has_label_set_column_same key col d :
  has_label key (set_column key col d) = true.
Proof.
  apply has_label_true. rewrite set_column_labels.
  destruct (has_label key d) eqn:E; [by apply has_label_true|].
  apply elem_of_app. right. by apply list_elem_of_singleton.
Qed.

Lemma has_label_set_column_other key key' col d :
  key <> key' ->
  has_label key' (set_column key col d) = has_label key' d.
Proof.
  intros N. unfold has_label. rewrite set_column_labels.
  destruct (has_label key d); [done|].
  apply bool_decide_ext. rewrite elem_of_app, list_elem_of_singleton.
  split; [intros [I|I]; [done|by symmetry in I]|intros I; by left].
Qed.

Lemma columns_of_app key (cs cs' : list (pystr * list value)) i :
  columns_of key {| index_len := i; data := cs ++ cs' |}
  = columns_of key {| index_len := i; data := cs |}
    ++ columns_of key {| index_len := i; data := cs' |}.
Proof. unfold columns_of. simpl. by rewrite List.filter_app, fmap_app. Qed.

Lemma columns_of_absent key d :
  has_label key d = false -> columns_of key d = [].
Proof.
  rewrite has_label_false. unfold columns_of, labels.
  induction (data d) as [|[l c] cs IH]; [done|]. simpl. intros N.
  destruct (PyStr.eqb l key) eqn:E.
  - apply eqb_true in E as ->. exfalso. apply N. by left.
  - apply IH. intros I. apply N. by right.
Qed.

Lemma replaced_columns key col (cs : list (pystr * list value)) :
  (List.filter (fun c => PyStr.eqb c.1 key)
     (List.map (fun c => if PyStr.eqb c.1 key then (key, col) else c) cs)).*2
  = replicate (length (List.filter (fun c => PyStr.eqb c.1 key) cs)) col.
Proof.
  induction cs as [|[l c] cs IH]; [done|]. simpl.
  destruct (PyStr.eqb l key) eqn:E; simpl.
  - rewrite (proj2 (eqb_true key key) eq_refl). simpl. f_equal. exact IH.
  - rewrite E. exact IH.
Qed.

Lemma filter_label_present key (cs : list (pystr * list value)) :
  key ∈ cs.*1 ->
  exists n, length (List.filter (fun c => PyStr.eqb c.1 key) cs) = S n.
Proof.
  induction cs as [|[l c] cs IH]; simpl; [by intros ?%elem_of_nil|].
  intros [->|I]%elem_of_cons.
  - rewrite (proj2 (eqb_true l l) eq_refl). simpl. eauto.
  - destruct (PyStr.eqb l key); simpl; eauto.
Qed.

(** After [df[key] = col] every column under [key] is [col], and there is
    one. *)
Lemma columns_of_set_column_same key col d :
  exists n, columns_of key (set_column key col d) = replicate (S n) col.
Proof.
  unfold set_column. destruct (has_label key d) eqn:P.
  - apply has_label_true in P. unfold columns_of, labels in *. simpl.
    destruct (filter_label_present key (data d) P) as [n L].
    exists n. by rewrite replaced_columns, L.
  - exists 0%nat. rewrite columns_of_app.
    rewrite (columns_of_absent key {| index_len := index_len d; data := data d |})
      by (by destruct d).
    unfold columns_of. simpl. by rewrite (proj2 (eqb_true key key) eq_refl).
Qed.

Lemma columns_of_set_column_other key key' col d :
  key <> key' -> columns_of key' (set_column key col d) = columns_of key' d.
Proof.
  intros N. unfold set_column. destruct (has_label key d).
  - unfold columns_of. simpl. f_equal.
    induction (data d) as [|[l c] cs IH]; [done|]. simpl.
    destruct (PyStr.eqb l key) eqn:E.
    + apply eqb_true in E as ->. simpl.
      rewrite (proj2 (eqb_false key key') N). exact IH.
    + simpl. destruct (PyStr.eqb l key'); simpl; [f_equal|]; exact IH.
  - rewrite columns_of_app. unfold columns_of at 2. simpl.
    rewrite (proj2 (eqb_false key key') N). simpl. rewrite app_nil_r.
    by destruct d.
Qed.

(** ** [normalize_df] on the heap is [normalize_frame] on the frame *)

Lemma normalize_df_run h df d filename :
  h !! df = Some d ->
  normalize_df df filename h =
  match normalize_frame d filename with
  | inr d' => Returns df (<[df := d']> h)
  | inl e => Raises e
  end.
Proof.
  intros E. unfold normalize_df.
  rewrite (bind_returns _ _ _ _ _ (run_get_columns _ _ _ E)).
  assert (length (clean_label <$> labels d) = length (data d)) as L
    by (unfold labels; by rewrite !length_fmap).
  rewrite (bind_returns _ _ _ _ _ (run_set_columns _ _ _ _ E L)).
  rewrite (bind_returns _ _ _ _ _
             (run_rename _ df _ _ (lookup_insert_eq h df _))).
  rewrite insert_insert_eq.
  pose proof (normalize_headers_two_steps d) as N. simpl in N. rewrite N.
  clear N L. unfold normalize_frame, with_year.
  set (d0 := normalize_headers d).
  assert (forall v,
    (pd.setitem_scalar df (lit "Year") v ≫= fun _ =>
       has_lat ← pd.contains df (lit "Latitude");
       has_lon ← pd.contains df (lit "Longitude");
       (if (negb has_lat || negb has_lon)%bool
        then
          x ← pd.getitem df (lit "District");
          pd.setitem df (lit "Latitude") (latitude_of <$> x);;
          x0 ← pd.getitem df (lit "District");
          pd.setitem df (lit "Longitude") (longitude_of <$> x0)
        else mret tt);;
       mret df) (<[df := d0]> h)
    = match with_coords
              (set_column (lit "Year") (replicate (index_len d0) v) d0) with
      | inr d' => Returns df (<[df := d']> h)
      | inl e => Raises e
      end) as Rest.
  { intros v.
    rewrite (bind_returns _ _ _ _ _
               (run_setitem_scalar _ df _ _ _ (lookup_insert_eq h df _))).
    rewrite insert_insert_eq.
    set (d1 := set_column _ _ d0).
    rewrite (bind_returns _ _ _ _ _
               (run_contains _ df _ _ (lookup_insert_eq h df _))).
    rewrite (bind_returns _ _ _ _ _
               (run_contains _ df _ _ (lookup_insert_eq h df _))).
    unfold with_coords, lacks_coords.
    destruct (negb (has_label (lit "Latitude") d1)
              || negb (has_label (lit "Longitude") d1))%bool; [|done].
    pose proof (run_getitem _ df _ (lit "District") (lookup_insert_eq h df d1))
      as G.
    rewrite bind_assoc.
    destruct (columns_of (lit "District") d1) as [|dist [|? ?]] eqn:C.
    - by rewrite (bind_raises _ _ _ _ G).
    - rewrite (bind_returns _ _ _ _ _ G). rewrite bind_assoc.
      rewrite (bind_returns _ _ _ _ _
                 (run_setitem _ df _ _ _ (lookup_insert_eq h df _))).
      rewrite insert_insert_eq.
      pose proof (run_getitem _ df _ (lit "District")
                    (lookup_insert_eq h df
                       (set_column (lit "Latitude") (latitude_of <$> dist) d1)))
        as G'.
      rewrite columns_of_set_column_other, C in G' by done.
      rewrite bind_assoc, (bind_returns _ _ _ _ _ G').
      rewrite (bind_returns _ _ _ _ _
                 (run_setitem _ df _ _ _ (lookup_insert_eq h df _))).
      by rewrite insert_insert_eq.
    - by rewrite (bind_raises _ _ _ _ G). }
  destruct (List.filter isdigit filename) as [|c year] eqn:F.
  - apply Rest.
  - destruct (PyStr.int (c :: year)) as [n|] eqn:I.
    + rewrite <- Rest.
      unfold mbind at 1, M_bind at 1. unfold mbind at 1, M_bind at 1.
      simpl. done.
    + done.
Qed.

Lemma normalize_df_returns h df filename df' h' d :
  h !! df = Some d ->
  normalize_df df filename h = Returns df' h' ->
  df' = df /\
  exists d', normalize_frame d filename = inr d' /\ h' = <[df := d']> h.
Proof.
  intros E R. rewrite (normalize_df_run _ _ _ _ E) in R.
  destruct (normalize_frame d filename) as [e|d'] eqn:F; [done|].
  injection R as <- <-. eauto.
Qed.

(** ** The Year step *)

(** The cell [normalize_df] writes in the Year column. *)
Lemma with_year_inv filename d d1 :
  with_year filename d = inr d1 ->
  exists v, d1 = set_column (lit "Year") (replicate (index_len d) v) d /\
    match List.filter isdigit filename with
    | [] => v = VNone
    | year => exists n, PyStr.int year = Some n /\ v = VInt n
    end.
Proof.
  unfold with_year. destruct (List.filter isdigit filename) as [|c year].
  - intros [= <-]. eauto.
  - destruct (PyStr.int (c :: year)) as [n|]; [|done].
    intros [= <-]. eauto.
Qed.

Lemma decimal_value_isdecimal c :
  isdecimal c = true -> exists v, decimal_value c = Some v /\ 0 <= v < 10.
Proof.
  unfold isdecimal, decimal_value. intros H.
  apply existsb_exists in H as (r & I & R).
  destruct (List.find (in_range c) decimal_ranges) as [r'|] eqn:F.
  - eexists. split; [done|].
    pose proof (N.mod_upper_bound (c - r'.1) 10 ltac:(done)) as B.
    revert B. generalize ((c - r'.1) mod 10)%N. intros k B. lia.
  - by rewrite (find_none _ _ F _ I) in R.
Qed.

Lemma decimal_value_none c : isdecimal c = false -> decimal_value c = None.
Proof.
  unfold decimal_value, isdecimal. intros H.
  destruct (List.find (in_range c) decimal_ranges) as [r|] eqn:F; [|done].
  apply find_some in F as [F1 F2].
  assert (existsb (in_range c) decimal_ranges = true) as X
    by (apply existsb_exists; eauto).
  congruence.
Qed.

(** The loop of [int] shifts what it has read by one place per character. *)
Lemma int_digits_base_ten s ds acc :
  writes_digits s ds ->
  int_digits acc s = Some (acc * 10 ^ Z.of_nat (length ds) + base_ten ds).
Proof.
  intros W. revert acc. induction W as [|c d s ds Hc W IH]; intros acc.
  - simpl. f_equal. lia.
  - simpl int_digits. rewrite Hc, IH. f_equal.
    cbn [base_ten length]. rewrite Nat2Z.inj_succ, Z.pow_succ_r by lia. lia.
Qed.

Lemma writes_digits_decimal s :
  forallb isdecimal s = true -> exists ds, writes_digits s ds.
Proof.
  induction s as [|c s IH]; intros H; [exists []; constructor|].
  simpl in H. apply andb_prop in H as [Hc Hs].
  destruct (decimal_value_isdecimal c Hc) as (v & E & _).
  destruct (IH Hs) as [ds W]. exists (v :: ds). by constructor.
Qed.

Lemma int_digits_some s acc n :
  int_digits acc s = Some n -> forallb isdecimal s = true.
Proof.
  revert acc. induction s as [|c s IH]; intros acc; [done|]. simpl.
  destruct (isdecimal c) eqn:D.
  - destruct (decimal_value c); [apply IH|done].
  - by rewrite (decimal_value_none c D).
Qed.

(** What [int] reads: a string that is not empty, of decimal characters, no
    longer than the limit; and the number it gives is the one the digits
    write in base ten. *)
Lemma int_spec s n :
  PyStr.int s = Some n <->
  s <> [] /\ forallb isdecimal s = true /\
  (length s <= int_max_str_digits)%nat /\
  exists ds, writes_digits s ds /\ n = base_ten ds.
Proof.
  unfold PyStr.int. destruct s as [|c s]; [split; [done|by intros [? _]]|].
  destruct (Nat.leb_spec (length (c :: s)) int_max_str_digits) as [L|L].
  - split.
    + intros I. split; [done|]. pose proof (int_digits_some _ _ _ I) as D.
      split; [done|]. split; [done|].
      destruct (writes_digits_decimal _ D) as [ds W]. exists ds.
      split; [done|]. rewrite (int_digits_base_ten _ _ _ W) in I.
      injection I as <-. lia.
    + intros (_ & _ & _ & ds & W & ->).
      rewrite (int_digits_base_ten _ _ _ W). f_equal; lia.
  - split; [done|]. intros (_ & _ & L' & _). lia.
Qed.

(** [int] reads every non-empty string of decimal characters within the
    limit. *)
Lemma int_decimal s :
  s <> [] -> forallb isdecimal s = true ->
  (length s <= int_max_str_digits)%nat ->
  exists n, PyStr.int s = Some n.
Proof.
  intros N D L. destruct (writes_digits_decimal _ D) as [ds W].
  exists (base_ten ds). apply int_spec. eauto 10.
Qed.

(** [int] fails on a string that holds a character that is not decimal. *)
Lemma int_not_decimal s c :
  c ∈ s -> isdecimal c = false -> PyStr.int s = None.
Proof.
  intros I H. destruct (PyStr.int s) as [n|] eqn:E; [|done].
  apply int_spec in E as (_ & D & _). rewrite forallb_forall in D.
  apply list_elem_of_In in I. specialize (D c I). congruence.
Qed.

(** [int] fails on a string longer than the limit. *)
Lemma int_too_long s :
  (int_max_str_digits < length s)%nat -> PyStr.int s = None.
Proof.
  intros L. destruct (PyStr.int s) as [n|] eqn:E; [|done].
  apply int_spec in E as (_ & _ & L' & _). lia.
Qed.

(** ** The coordinate step *)

Lemma with_coords_inv d d' :
  with_coords d = inr d' ->
  (lacks_coords d = false /\ d' = d) \/
  (lacks_coords d = true /\ exists dist,
     columns_of (lit "District") d = [dist] /\
     d' = set_column (lit "Longitude") (longitude_of <$> dist)
            (set_column (lit "Latitude") (latitude_of <$> dist) d)).
Proof.
  unfold with_coords. destruct (lacks_coords d); [|intros [= <-]; by left].
  destruct (columns_of (lit "District") d) as [|dist [|? ?]]; try done.
  intros [= <-]. right. eauto.
Qed.

Lemma lit_neq (s t : string) :
  bool_decide (lit s = lit t) = false -> lit s <> lit t.
Proof. apply bool_decide_eq_false. Qed.




(** ** [normalize_df]: the frame behind the returned reference *)

Lemma normalize_frame_inv d filename d' :
  normalize_frame d filename = inr d' ->
  exists v,
    match List.filter isdigit filename with
    | [] => v = VNone
    | year => exists n, PyStr.int year = Some n /\ v = VInt n
    end /\
    with_coords (set_column (lit "Year") (replicate (index_len d) v)
                   (normalize_headers d)) = inr d'.
Proof.
  unfold normalize_frame. intros F.
  destruct (with_year filename (normalize_headers d)) as [e|d1] eqn:Y; [done|].
  apply with_year_inv in Y as (v & -> & Hv). eauto.
Qed.

Lemma normalize_headers_labels d :
  labels (normalize_headers d) = header <$> labels d.
Proof.
  unfold normalize_headers. apply relabel_labels.
  unfold labels. by rewrite !length_fmap.
Qed.

Lemma set_column_keeps_labels key col d c :
  c ∈ labels d -> c ∈ labels (set_column key col d).
Proof.
  intros I. rewrite set_column_labels.
  destruct (has_label key d); [done|]. apply elem_of_app. by left.
Qed.

Lemma with_coords_keeps_labels d d' c :
  with_coords d = inr d' -> c ∈ labels d -> c ∈ labels d'.
Proof.
  intros W I. apply with_coords_inv in W as [[_ ->]|(_ & dist & _ & ->)];
    [done|]. by do 2 apply set_column_keeps_labels.
Qed.

Lemma with_coords_has_coords d d' :
  with_coords d = inr d' ->
  has_label (lit "Latitude") d' = true /\
  has_label (lit "Longitude") d' = true.
Proof.
  intros W. apply with_coords_inv in W as [[L ->]|(_ & dist & _ & ->)].
  - unfold lacks_coords in L. apply orb_false_elim in L as [L1 L2].
    by rewrite negb_false_iff in L1, L2.
  - split; [|apply has_label_set_column_same].
    rewrite has_label_set_column_other by (by apply lit_neq; vm_compute).
    apply has_label_set_column_same.
Qed.

Lemma with_coords_columns_other d d' key :
  key <> lit "Latitude" -> key <> lit "Longitude" ->
  with_coords d = inr d' -> columns_of key d' = columns_of key d.
Proof.
  intros N1 N2 W.
  apply with_coords_inv in W as [[_ ->]|(_ & dist & _ & ->)]; [done|].
  by rewrite !columns_of_set_column_other.
Qed.

Lemma lacks_coords_with_year v n d :
  lacks_coords (set_column (lit "Year") (replicate n v) d) = lacks_coords d.
Proof.
  unfold lacks_coords.
  by rewrite !has_label_set_column_other by (by apply lit_neq; vm_compute).
Qed.

Lemma with_coords_index_len d d' :
  with_coords d = inr d' -> index_len d' = index_len d.
Proof.
  intros W. by apply with_coords_inv in W as [[_ ->]|(_ & dist & _ & ->)].
Qed.

Lemma normalize_headers_data d :
  data (normalize_headers d)
  = (fun c : pystr * list value => (header c.1, c.2)) <$> data d.
Proof.
  unfold normalize_headers, relabel, labels. simpl.
  induction (data d) as [|[l c] cs IH]; [done|]. simpl. f_equal. exact IH.
Qed.

Lemma columns_of_normalize_headers key d :
  columns_of key (normalize_headers d)
  = (List.filter (fun c => PyStr.eqb (header c.1) key) (data d)).*2.
Proof.
  unfold columns_of. rewrite normalize_headers_data.
  induction (data d) as [|[l c] cs IH]; [done|]. simpl.
  destruct (PyStr.eqb (header l) key); simpl; [f_equal|]; exact IH.
Qed.


Lemma elem_of_replicate_eq {A} (x y : A) n : x ∈ replicate n y -> x = y.
Proof. by intros [? _]%elem_of_replicate. Qed.

(** C1 (the code breaks it): a filename whose digit characters include
    one that is no decimal digit. [str.isdigit] keeps the superscript two of
    "levels²021.csv", [int] refuses the string "²021", and [normalize_df]
    raises ValueError: no Year is derived. *)
Theorem normalize_df_superscript_digit_raises :
  isdigit 178%N = true /\
  List.filter isdigit superscript_filename = [178; 48; 50; 49]%N /\
  normalize_df 0%nat superscript_filename (heap_of sample_frame)
  = Raises ValueError.
Proof. vm_compute. done. Qed.

(** C7: whatever the frame and the filename, the frame behind the reference
    [normalize_df] returns has a Year column, a Latitude column and a
    Longitude column. *)
Theorem normalize_df_output_columns h df filename df' h' :
  is_Some (h !! df) ->
  normalize_df df filename h = Returns df' h' ->
  exists d', h' !! df' = Some d' /\
    has_label (lit "Year") d' = true /\
    has_label (lit "Latitude") d' = true /\
    has_label (lit "Longitude") d' = true.
Proof.
  intros [d E] R.
  apply (normalize_df_returns _ _ _ _ _ _ E) in R as (-> & d' & F & ->).
  apply normalize_frame_inv in F as (v & _ & W).
  exists d'. rewrite lookup_insert_eq. split; [done|].
  destruct (with_coords_has_coords _ _ W) as [? ?]. split; [|done].
  apply has_label_true. apply (with_coords_keeps_labels _ _ _ W).
  apply has_label_true, has_label_set_column_same.
Qed.

Lemma normalize_df_output_columns_witness :
  exists d',
    heap_after (normalize_df 0%nat sample_filename (heap_of sample_frame))
      !! 0%nat = Some d' /\
    has_label (lit "Year") d' = true /\
    has_label (lit "Latitude") d' = true /\
    has_label (lit "Longitude") d' = true.
Proof.
  apply (normalize_df_output_columns (heap_of sample_frame) 0%nat
           sample_filename 0%nat).
  - exists sample_frame. vm_compute. reflexivity.
  - vm_compute. reflexivity.
Defined.






(** C10: [normalize_df] works in place. The reference it returns is its
    argument; no object is created and no other object is touched; the
    frame behind the argument is the updated one: every column is still
    there under its cleaned and renamed header, and the Year column is in
    it. The caller's frame and the returned frame are one object. *)
Theorem normalize_df_in_place h df filename df' h' d :
  h !! df = Some d ->
  normalize_df df filename h = Returns df' h' ->
  df' = df /\
  dom h' = dom h /\
  (forall r, r <> df -> h' !! r = h !! r) /\
  exists d', h' !! df = Some d' /\
    normalize_frame d filename = inr d' /\
    (forall c, c ∈ labels d -> header c ∈ labels d') /\
    lit "Year" ∈ labels d'.
Proof.
  intros E R.
  apply (normalize_df_returns _ _ _ _ _ _ E) in R as (-> & d' & F & ->).
  split; [done|]. split; [|split].
  - rewrite dom_insert_L. apply subseteq_union_1_L, singleton_subseteq_l.
    by apply elem_of_dom_2 in E.
  - intros r N. by rewrite lookup_insert_ne.
  - exists d'. rewrite lookup_insert_eq. split; [done|]. split; [done|].
    apply normalize_frame_inv in F as (v & _ & W). split.
    + intros c I. apply (with_coords_keeps_labels _ _ _ W).
      apply set_column_keeps_labels. rewrite normalize_headers_labels.
      by apply list_elem_of_fmap_2.
    + apply (with_coords_keeps_labels _ _ _ W).
      apply has_label_true, has_label_set_column_same.
Qed.

Lemma normalize_df_in_place_witness :
  let h' := heap_after (normalize_df 0%nat sample_filename
                          (heap_of sample_frame)) in
  0%nat = 0%nat /\
  dom h' = dom (heap_of sample_frame) /\
  (forall r, r <> 0%nat -> h' !! r = heap_of sample_frame !! r) /\
  exists d', h' !! 0%nat = Some d' /\
    normalize_frame sample_frame sample_filename = inr d' /\
    (forall c, c ∈ labels sample_frame -> header c ∈ labels d') /\
    lit "Year" ∈ labels d'.
Proof.
  apply (normalize_df_in_place (heap_of sample_frame) 0%nat sample_filename
           0%nat _ sample_frame).
  - vm_compute. reflexivity.
  - vm_compute. reflexivity.
Defined.

(** ** Binary64: order and the sign of a difference *)

Ltac cmp_cases :=
  repeat match goal with
    | |- context [PosDef.Pos.compare_cont Eq ?a ?b] =>
        change (PosDef.Pos.compare_cont Eq a b) with (Pos.compare a b)
    | H : context [PosDef.Pos.compare_cont Eq ?a ?b] |- _ =>
        change (PosDef.Pos.compare_cont Eq a b) with (Pos.compare a b) in H
    end;
  repeat match goal with
    | |- context [Z.compare ?a ?b] => destruct (Z.compare_spec a b)
    | H : context [Z.compare ?a ?b] |- _ => destruct (Z.compare_spec a b)
    | |- context [Pos.compare ?a ?b] => destruct (Pos.compare_spec a b)
    | H : context [Pos.compare ?a ?b] |- _ => destruct (Pos.compare_spec a b)
    end;
  simpl in *; try congruence; try lia.

Lemma SFcompare_refl a : a <> S754_nan -> SFcompare a a = Some Eq.
Proof.
  destruct a as [s|s| |s m e]; try done; destruct s; simpl; try done;
    intros _; cmp_cases.
Qed.

Lemma SFcompare_antisym a b c :
  SFcompare a b = Some c -> SFcompare b a = Some (CompOpp c).
Proof.
  destruct a as [s|s| |s m e], b as [s'|s'| |s' m' e']; simpl; try done;
    try (destruct s; try destruct s'; intros [= <-]; done);
    try (destruct s'; intros [= <-]; done).
  destruct s, s'; intros [= <-]; try done; cmp_cases.
Qed.


Lemma SFltb_cases a b : SFltb a b = true <-> SFcompare a b = Some Lt.
Proof.
  unfold SFltb. destruct (SFcompare a b) as [[]|]; intuition congruence.
Qed.


(** ** Magnitudes of canonical mantissas *)







(** ** The sign of a rounded result *)




(** ** Order and subtraction on binary64 floats *)

Lemma is_nan_spec x : is_nan x = true <-> Prim2SF x = S754_nan.
Proof.
  unfold is_nan. rewrite FloatAxioms.eqb_spec. unfold SFeqb.
  assert (Prim2SF x = S754_nan \/ Prim2SF x <> S754_nan) as [E|E]
    by (destruct (Prim2SF x); [right|right|left|right]; done).
  - rewrite E. done.
  - rewrite SFcompare_refl by done. simpl. split; done.
Qed.


Lemma ltb_compare x y :
  (x <? y)%float = true <-> SFcompare (Prim2SF x) (Prim2SF y) = Some Lt.
Proof. rewrite FloatAxioms.ltb_spec. apply SFltb_cases. Qed.





Lemma SFcompare_total a b :
  a <> S754_nan -> b <> S754_nan -> exists c, SFcompare a b = Some c.
Proof.
  destruct a as [s|s| |s m e], b as [s'|s'| |s' m' e']; simpl; try done;
    intros _ _; eauto.
Qed.


Lemma eqb_compare x y :
  (x =? y)%float = true <-> SFcompare (Prim2SF x) (Prim2SF y) = Some Eq.
Proof.
  rewrite FloatAxioms.eqb_spec. unfold SFeqb.
  destruct (SFcompare _ _) as [[]|]; split; congruence.
Qed.

Lemma eqb_refl x : is_nan x = false -> (x =? x)%float = true.
Proof.
  intros N. apply eqb_compare, SFcompare_refl.
  intros E. apply is_nan_spec in E. congruence.
Qed.

Lemma eqb_nan_l x y : is_nan x = true -> (x =? y)%float = false.
Proof.
  intros N. apply is_nan_spec in N.
  rewrite FloatAxioms.eqb_spec, N. unfold SFeqb. simpl.
  by destruct (Prim2SF y).
Qed.

(** On present floats the order of the keys is [Eq] exactly where the
    floats are equal. *)
Lemma cmp_float_eqb x y :
  is_nan x = false -> is_nan y = false ->
  match cmp_float x y with Eq => true | _ => false end = (x =? y)%float.
Proof.
  intros Nx Ny.
  assert (Prim2SF x <> S754_nan) as Ex
    by (intros E; apply is_nan_spec in E; congruence).
  assert (Prim2SF y <> S754_nan) as Ey
    by (intros E; apply is_nan_spec in E; congruence).
  destruct (SFcompare_total _ _ Ex Ey) as [c C].
  unfold cmp_float.
  rewrite FloatAxioms.compare_spec, FloatAxioms.eqb_spec. unfold SFeqb.
  rewrite C. by destruct c.
Qed.










(** ** Grouping *)

Section GroupByFacts.
Context {R K : Type} (key : R -> option K) (cmp : K -> K -> comparison).
Hypothesis cmp_eq : forall a b, cmp a b = Eq <-> a = b.
Hypothesis cmp_antisym : forall a b, cmp b a = CompOpp (cmp a b).
Hypothesis cmp_trans : forall a b c, cmp a b = Lt -> cmp b c = Lt -> cmp a c = Lt.

Lemma elem_of_insert_key k k' ks :
  k' ∈ insert_key cmp k ks <-> k' = k \/ k' ∈ ks.
Proof using cmp_eq.
  induction ks as [|k0 ks IH]; simpl.
  - rewrite list_elem_of_singleton. split; [by left|]. intros [?|I]; [done|].
    by apply elem_of_nil in I.
  - destruct (cmp k k0) eqn:C.
    + apply cmp_eq in C as ->. rewrite elem_of_cons. tauto.
    + by rewrite elem_of_cons.
    + rewrite !elem_of_cons, IH. tauto.
Qed.

Lemma insert_key_sorted k ks :
  StronglySorted (key_lt cmp) ks -> StronglySorted (key_lt cmp) (insert_key cmp k ks).
Proof using cmp_eq cmp_antisym cmp_trans.
  induction 1 as [|k0 ks S IH F]; simpl.
  - repeat constructor.
  - destruct (cmp k k0) eqn:C.
    + by constructor.
    + constructor; [by constructor|]. constructor; [done|].
      eapply Forall_impl; [exact F|]. intros b. by apply cmp_trans.
    + constructor; [done|]. apply Forall_forall. intros b I.
      apply elem_of_insert_key in I as [->|I].
      * unfold key_lt. by rewrite cmp_antisym, C.
      * by apply (proj1 (Forall_forall _ _) F).
Qed.

Lemma group_keys_from acc rs k :
  k ∈ foldl (fun ks r => match key r with
                         | Some k => insert_key cmp k ks
                         | None => ks
                         end) acc rs
  <-> k ∈ acc \/ exists r, r ∈ rs /\ key r = Some k.
Proof using cmp_eq.
  revert acc. induction rs as [|r rs IH]; intros acc; simpl.
  - split; [by left|]. intros [?|(r & I & _)]; [done|].
    by apply elem_of_nil in I.
  - rewrite IH. destruct (key r) as [k0|] eqn:E.
    + rewrite elem_of_insert_key. split.
      * intros [[->|?]|(r' & I & E')]; [right|by left|right].
        -- exists r. split; [by left|done].
        -- exists r'. split; [by right|done].
      * intros [?|(r' & I & E')]; [left; by right|].
        apply elem_of_cons in I as [->|I]; [|right; eauto].
        left. left. congruence.
    + split.
      * intros [?|(r' & I & E')]; [by left|right].
        exists r'. split; [by right|done].
      * intros [?|(r' & I & E')]; [by left|].
        apply elem_of_cons in I as [->|I]; [congruence|right; eauto].
Qed.

(** The keys of the groups are the keys of the rows. *)
Lemma elem_of_group_keys rs k :
  k ∈ group_keys key cmp rs <-> exists r, r ∈ rs /\ key r = Some k.
Proof using cmp_eq.
  unfold group_keys. rewrite group_keys_from. split; [|by right].
  intros [I|?]; [by apply elem_of_nil in I|done].
Qed.

(** The groups come in the strict order of their keys: each key once. *)
Lemma group_keys_sorted rs : StronglySorted (key_lt cmp) (group_keys key cmp rs).
Proof using cmp_eq cmp_antisym cmp_trans.
  unfold group_keys.
  assert (StronglySorted (key_lt cmp) []) as S by constructor.
  revert S. generalize (@nil K). induction rs as [|r rs IH]; intros acc S; [done|].
  simpl. apply IH. destruct (key r); [by apply insert_key_sorted|done].
Qed.

(** The rows of a group are the rows with its key. *)
Lemma in_group_spec k r : in_group key cmp k r = true <-> key r = Some k.
Proof using cmp_eq.
  unfold in_group. destruct (key r) as [k'|]; [|done].
  destruct (cmp k' k) eqn:C.
  - apply cmp_eq in C as ->. done.
  - split; [done|]. intros [= ->]. rewrite (proj2 (cmp_eq k k) eq_refl) in C. done.
  - split; [done|]. intros [= ->]. rewrite (proj2 (cmp_eq k k) eq_refl) in C. done.
Qed.


End GroupByFacts.

Lemma insert_key_from {K} (cmp : K -> K -> comparison) k k' ks :
  k' ∈ insert_key cmp k ks -> k' = k \/ k' ∈ ks.
Proof.
  induction ks as [|k0 ks IH]; simpl.
  - intros I%list_elem_of_singleton. by left.
  - destruct (cmp k k0).
    + by right.
    + intros [->|I]%elem_of_cons; [by left|by right].
    + intros [->|I]%elem_of_cons; [right; by left|].
      destruct (IH I) as [?|?]; [by left|right; by right].
Qed.

(** The key of a group is the key of a row, whatever the order. *)
Lemma group_keys_from_rows {R K} (key : R -> option K)
    (cmp : K -> K -> comparison) rs k :
  k ∈ group_keys key cmp rs -> exists r, r ∈ rs /\ key r = Some k.
Proof.
  unfold group_keys.
  assert (forall acc,
    k ∈ foldl (fun ks r => match key r with
                           | Some k => insert_key cmp k ks
                           | None => ks
                           end) acc rs ->
    k ∈ acc \/ exists r, r ∈ rs /\ key r = Some k) as G.
  { induction rs as [|r rs IH]; intros acc; simpl; [by left|].
    intros I. apply IH in I as [I|(r' & I & E)].
    - destruct (key r) as [k0|] eqn:E; [|by left].
      apply insert_key_from in I as [->|I]; [right|by left].
      exists r. split; [by left|done].
    - right. exists r'. split; [by right|done]. }
  intros I. apply G in I as [I|?]; [by apply elem_of_nil in I|done].
Qed.

(** ** The order of the keys (District, Year) *)

Lemma compare_eq_iff s t : PyStr.compare s t = Eq <-> s = t.
Proof.
  revert t. induction s as [|c s IH]; intros [|d t]; simpl; try done.
  destruct (N.compare_spec c d) as [->|?|?].
  - rewrite IH. split; congruence.
  - split; [done|]. intros [= -> _]. lia.
  - split; [done|]. intros [= -> _]. lia.
Qed.

Lemma compare_antisym s t :
  PyStr.compare t s = CompOpp (PyStr.compare s t).
Proof.
  revert t. induction s as [|c s IH]; intros [|d t]; simpl; try done.
  rewrite (N.compare_antisym c d).
  destruct (N.compare c d); simpl; [apply IH|done|done].
Qed.

Lemma compare_trans s t u :
  PyStr.compare s t = Lt -> PyStr.compare t u = Lt -> PyStr.compare s u = Lt.
Proof.
  revert t u. induction s as [|c s IH]; intros [|d t] [|e u]; simpl;
    try done.
  destruct (N.compare_spec c d) as [->|?|?]; [|intros _|done].
  - destruct (N.compare d e); [apply IH|done|done].
  - destruct (N.compare_spec d e) as [->|?|?]; [|intros _|done].
    + intros _. by rewrite (proj2 (N.compare_lt_iff c e)).
    + by rewrite (proj2 (N.compare_lt_iff c e)) by lia.
Qed.

Lemma cmp_district_year_eq a b : cmp_district_year a b = Eq <-> a = b.
Proof.
  unfold cmp_district_year. destruct a as [d y], b as [d' y']. simpl.
  destruct (PyStr.compare d d') eqn:C.
  - apply compare_eq_iff in C as ->. rewrite Z.compare_eq_iff.
    split; congruence.
  - split; [done|]. intros [= -> _].
    by rewrite (proj2 (compare_eq_iff d' d') eq_refl) in C.
  - split; [done|]. intros [= -> _].
    by rewrite (proj2 (compare_eq_iff d' d') eq_refl) in C.
Qed.

Lemma cmp_district_year_antisym a b :
  cmp_district_year b a = CompOpp (cmp_district_year a b).
Proof.
  unfold cmp_district_year. rewrite (compare_antisym a.1 b.1).
  destruct (PyStr.compare a.1 b.1); simpl; [|done|done].
  apply Z.compare_antisym.
Qed.

Lemma cmp_district_year_trans a b c :
  cmp_district_year a b = Lt -> cmp_district_year b c = Lt ->
  cmp_district_year a c = Lt.
Proof.
  unfold cmp_district_year.
  destruct (PyStr.compare a.1 b.1) eqn:C1; [|intros _|done].
  - apply compare_eq_iff in C1. rewrite C1.
    destruct (PyStr.compare b.1 c.1); [|done|done].
    rewrite !Z.compare_lt_iff. lia.
  - destruct (PyStr.compare b.1 c.1) eqn:C2; [|intros _|done].
    + apply compare_eq_iff in C2. rewrite <- C2, C1. done.
    + by rewrite (compare_trans _ _ _ C1 C2).
Qed.

(** In one district the keys are ordered by year. *)
Lemma cmp_same_district d y y' :
  cmp_district_year (d, y) (d, y') = Lt <-> y < y'.
Proof.
  unfold cmp_district_year. simpl.
  rewrite (proj2 (compare_eq_iff d d) eq_refl). apply Z.compare_lt_iff.
Qed.

Lemma key_district_year_spec r d y :
  key_district_year r = Some (d, y) <->
  Reading.District r = Some d /\ Reading.Year r = Some y.
Proof.
  unfold key_district_year.
  destruct (Reading.District r), (Reading.Year r);
    split; try done; try (intros [? ?]; done).
  - intros [= -> ->]. done.
  - intros [[= ->] [= ->]]. done.
Qed.


(** ** [calc_stats] *)

Lemma group_district_year_rows df d y :
  List.filter (in_group key_district_year cmp_district_year (d, y)) (rows df)
  = rows_of df d y.
Proof.
  unfold rows_of. apply List.filter_ext. intros r.
  destruct (in_group _ _ _ r) eqn:G.
  - apply (in_group_spec _ _ cmp_district_year_eq) in G.
    apply key_district_year_spec in G. symmetry. by apply bool_decide_eq_true.
  - symmetry. apply bool_decide_eq_false. intros G'.
    apply key_district_year_spec in G'.
    apply (in_group_spec _ _ cmp_district_year_eq) in G'. congruence.
Qed.





(** ** The yearly table and its differences *)

Lemma sort_by_sorted {A} (le : A -> A -> bool) (l : list A) :
  StronglySorted (fun a b => le a b = true) l -> sort_by le l = l.
Proof.
  induction 1 as [|x l S IH F]; [done|].
  unfold sort_by in *. simpl. rewrite IH.
  destruct l as [|y l]; [done|]. simpl.
  by rewrite (Forall_inv F).
Qed.

Section Yearly.
Variable mean : list float -> float.
Variable df : Table.

(** The yearly table: one row per present (District, Year), in the strict
    order of the keys, with the mean Minimum of the key's rows. *)
Lemma yearly_minimum_rows :
  yearly_minimum mean df
  = (fun k : pystr * Z => (k.1, k.2, mean_minimum mean df k.1 k.2))
      <$> group_keys key_district_year cmp_district_year (rows df).
Proof.
  unfold yearly_minimum, groupby. rewrite <- list_fmap_compose.
  rewrite sort_by_sorted.
  - apply list_fmap_ext. intros i [d y] _. simpl. unfold mean_minimum.
    by rewrite group_district_year_rows.
  - eapply StronglySorted_fmap;
      [|apply (group_keys_sorted _ _ cmp_district_year_eq
                 cmp_district_year_antisym cmp_district_year_trans)].
    intros [d y] [d' y'] L. unfold le_district_year, compose. simpl.
    unfold key_lt in L. by rewrite L.
Qed.

Lemma yearly_minimum_sorted :
  StronglySorted (fun a b => cmp_district_year a.1 b.1 = Lt)
    (yearly_minimum mean df).
Proof.
  rewrite yearly_minimum_rows.
  eapply StronglySorted_fmap;
    [|apply (group_keys_sorted _ _ cmp_district_year_eq
               cmp_district_year_antisym cmp_district_year_trans)].
  intros [d y] [d' y'] L. exact L.
Qed.

Lemma elem_of_yearly_minimum d y m :
  (d, y, m) ∈ yearly_minimum mean df <->
  present df d y /\ m = mean_minimum mean df d y.
Proof.
  rewrite yearly_minimum_rows, list_elem_of_fmap. split.
  - intros ([d' y'] & [= -> -> ->] & I).
    apply (elem_of_group_keys _ _ cmp_district_year_eq) in I as (r & I & Kr).
    apply key_district_year_spec in Kr. split; [by exists r|done].
  - intros [(r & I & Kr) ->]. exists (d, y). split; [done|].
    apply (elem_of_group_keys _ _ cmp_district_year_eq). exists r.
    split; [done|]. by apply key_district_year_spec.
Qed.

End Yearly.

(** The heap of latest values after a prefix of the yearly table. *)
Lemma diff_rows_split last pre x post :
  zip_with change_row (pre ++ x :: post)
    (diff_by_district last (pre ++ x :: post))
  = zip_with change_row pre (diff_by_district last pre)
    ++ change_row x
         match foldl (fun s r => <[r.1.1 := r.2]> s) last pre !! x.1.1 with
         | Some p => (x.2 - p)%float
         | None => nan
         end
       :: zip_with change_row post
            (diff_by_district
               (<[x.1.1 := x.2]>
                  (foldl (fun s r => <[r.1.1 := r.2]> s) last pre)) post).
Proof.
  revert last. induction pre as [|[[d y] m] pre IH]; intros last.
  - by destruct x as [[d y] m].
  - simpl. f_equal. apply IH.
Qed.

Lemma elem_of_diff_rows last t row :
  row ∈ zip_with change_row t (diff_by_district last t) ->
  exists pre x post, t = pre ++ x :: post /\
    row = change_row x
            match foldl (fun s r => <[r.1.1 := r.2]> s) last pre !! x.1.1 with
            | Some p => (x.2 - p)%float
            | None => nan
            end.
Proof.
  revert last. induction t as [|[[d y] m] t IH]; intros last I.
  - by apply elem_of_nil in I.
  - simpl in I. apply elem_of_cons in I as [->|I].
    + by exists [], (d, y, m), t.
    + destruct (IH _ I) as (pre & x & post & -> & ->).
      by exists ((d, y, m) :: pre), x, post.
Qed.

(** After a prefix in key order, the latest value of a district is the
    Minimum of its row with the greatest year. *)
Lemma latest_of_sorted (pre : list (pystr * Z * float)) d :
  StronglySorted (fun a b => cmp_district_year a.1 b.1 = Lt) pre ->
  match foldl (fun s r => <[r.1.1 := r.2]> s) (∅ : gmap pystr float) pre !! d
  with
  | Some p => exists y, (d, y, p) ∈ pre /\
                        forall y' p', (d, y', p') ∈ pre -> y' <= y
  | None => forall y' p', (d, y', p') ∉ pre
  end.
Proof.
  induction pre as [|[[dx yx] mx] pre IH] using rev_ind; intros S.
  - simpl. rewrite lookup_empty. intros y' p' I. by apply elem_of_nil in I.
  - rewrite foldl_app. simpl.
    apply StronglySorted_app in S as (Lt' & S & _).
    specialize (IH S). destruct (decide (dx = d)) as [->|N].
    + rewrite lookup_insert_eq. exists yx. split.
      * apply elem_of_app. right. by left.
      * intros y' p' [I|I]%elem_of_app.
        -- specialize (Lt' (d, y', p') (d, yx, mx) I ltac:(by left)).
           simpl in Lt'. apply cmp_same_district in Lt'. lia.
        -- apply list_elem_of_singleton in I. injection I as -> ->. lia.
    + rewrite lookup_insert_ne by done.
      destruct (foldl _ ∅ pre !! d) as [p|].
      * destruct IH as (y & I & Max). exists y. split.
        -- apply elem_of_app. by left.
        -- intros y' p' [I'|I']%elem_of_app; [by eapply Max|].
           apply list_elem_of_singleton in I'. congruence.
      * intros y' p' [I'|I']%elem_of_app; [by eapply IH|].
        apply list_elem_of_singleton in I'. congruence.
Qed.

Lemma sorted_split_unique (t pre pre' post post' : list (pystr * Z * float))
    x x' :
  StronglySorted (fun a b => cmp_district_year a.1 b.1 = Lt) t ->
  t = pre ++ x :: post -> t = pre' ++ x' :: post' -> x.1 = x'.1 ->
  pre = pre' /\ x = x'.
Proof.
  assert (forall a b : pystr * Z * float,
            a.1 = b.1 -> cmp_district_year a.1 b.1 = Lt -> False) as Irr.
  { intros a b E L. rewrite E in L.
    by rewrite (proj2 (cmp_district_year_eq b.1 b.1) eq_refl) in L. }
  intros S. revert pre pre'.
  induction S as [|z t S IH F]; intros pre pre' E E' K.
  - by destruct pre.
  - rewrite Forall_forall in F.
    destruct pre as [|a pre], pre' as [|a' pre']; simpl in *;
      injection E as -> ->; injection E' as E1 E2.
    + by subst.
    + subst. exfalso. apply (Irr a' x' K). apply F.
      apply elem_of_app. right. by left.
    + subst. exfalso. apply (Irr x' x (eq_sym K)). apply F.
      apply elem_of_app. right. by left.
    + subst a'. destruct (IH pre pre' eq_refl E2 K) as [-> ->]. done.
Qed.

(** C2: in the recharge/decline computation every district and year with a
    row has one row of [yearly_change], which carries the mean Minimum of
    that district and year. Its DeltaWL is missing when the year is the
    first one present for the district, and is that mean minus the mean of
    the previous present year of the district otherwise. *)
Theorem yearly_change_delta mean df d y :
  present df d y ->
  exists row,
    row ∈ yearly_change mean df /\
    Change.District row = d /\ Change.Year row = y /\
    Change.Minimum row = mean_minimum mean df d y /\
    (forall row', row' ∈ yearly_change mean df ->
       Change.District row' = d -> Change.Year row' = y -> row' = row) /\
    ((forall y', present df d y' -> y <= y') -> Change.DeltaWL row = nan) /\
    (forall y', present df d y' -> y' < y ->
       (forall y'', present df d y'' -> y'' < y -> y'' <= y') ->
       Change.DeltaWL row
       = (mean_minimum mean df d y - mean_minimum mean df d y')%float).
Proof.
  intros P. unfold yearly_change. simpl.
  pose proof (yearly_minimum_sorted mean df) as S.
  assert ((d, y, mean_minimum mean df d y) ∈ yearly_minimum mean df) as I
    by (by apply elem_of_yearly_minimum).
  apply list_elem_of_split in I as (pre & post & E).
  set (latest := foldl (fun s (r : pystr * Z * float) => <[r.1.1 := r.2]> s)
                   (∅ : gmap pystr float) pre !! d).
  assert (forall a, a ∈ pre -> cmp_district_year a.1 (d, y) = Lt) as Before.
  { intros a Ia. rewrite E in S. apply StronglySorted_app in S as (L & _ & _).
    apply (L a (d, y, mean_minimum mean df d y) Ia). by left. }
  assert (forall a, a ∈ post -> cmp_district_year (d, y) a.1 = Lt) as After.
  { intros a Ia. rewrite E in S. apply StronglySorted_app in S as (_ & _ & S).
    apply StronglySorted_cons in S as [F _]. rewrite Forall_forall in F.
    by apply (F a). }
  assert (forall y1 p, (d, y1, p) ∈ pre ->
            y1 < y /\ present df d y1 /\ p = mean_minimum mean df d y1) as Pre.
  { intros y1 p Ia. split; [|apply (elem_of_yearly_minimum mean df)].
    - apply (proj1 (cmp_same_district d y1 y)). apply (Before _ Ia).
    - rewrite E. apply elem_of_app. by left. }
  pose proof (latest_of_sorted pre d) as Latest. fold latest in Latest.
  assert (StronglySorted (fun a b : pystr * Z * float =>
                            cmp_district_year a.1 b.1 = Lt) pre) as Spre
    by (rewrite E in S; by apply StronglySorted_app in S as (_ & ? & _)).
  specialize (Latest Spre).
  exists (change_row (d, y, mean_minimum mean df d y)
            match latest with
            | Some p => (mean_minimum mean df d y - p)%float
            | None => nan
            end).
  split; [|split; [done|split; [done|split; [done|split; [|split]]]]].
  - rewrite E, diff_rows_split. apply elem_of_app. right. by left.
  - intros row' I' D' Y'.
    apply elem_of_diff_rows in I' as (pre' & [[d' y'] m'] & post' & E' & ->).
    simpl in D', Y'. subst d' y'.
    destruct (sorted_split_unique _ _ _ _ _ _ _ S E E' eq_refl) as [<- <-].
    done.
  - intros First. simpl. destruct latest as [p|]; [|done].
    destruct Latest as (y1 & I1 & _).
    destruct (Pre _ _ I1) as (Lt1 & P1 & _). specialize (First _ P1). lia.
  - intros y' P' Lt' Max. simpl.
    assert ((d, y', mean_minimum mean df d y') ∈ pre) as Ipre.
    { assert ((d, y', mean_minimum mean df d y') ∈ yearly_minimum mean df)
        as I' by (by apply elem_of_yearly_minimum).
      rewrite E in I'. apply elem_of_app in I' as [?|I']; [done|].
      apply elem_of_cons in I' as [[= ->]|I']; [lia|].
      apply After in I'. simpl in I'. apply cmp_same_district in I'. lia. }
    destruct latest as [p|]; [|by apply Latest in Ipre].
    destruct Latest as (y1 & I1 & Max1).
    destruct (Pre _ _ I1) as (Lt1 & P1 & ->).
    assert (y1 = y') as -> by (specialize (Max1 _ _ Ipre);
                               specialize (Max _ P1 Lt1); lia).
    done.
Qed.

Lemma yearly_change_delta_witness :
  exists row,
    row ∈ yearly_change simple_mean sample_table /\
    Change.District row = lit "Chennai" /\ Change.Year row = 2021 /\
    Change.Minimum row
    = mean_minimum simple_mean sample_table (lit "Chennai") 2021 /\
    (forall row', row' ∈ yearly_change simple_mean sample_table ->
       Change.District row' = lit "Chennai" -> Change.Year row' = 2021 ->
       row' = row) /\
    ((forall y', present sample_table (lit "Chennai") y' -> 2021 <= y') ->
     Change.DeltaWL row = nan) /\
    (forall y', present sample_table (lit "Chennai") y' -> y' < 2021 ->
       (forall y'', present sample_table (lit "Chennai") y'' -> y'' < 2021 ->
                    y'' <= y') ->
       Change.DeltaWL row
       = (mean_minimum simple_mean sample_table (lit "Chennai") 2021
          - mean_minimum simple_mean sample_table (lit "Chennai") y')%float).
Proof.
  apply (yearly_change_delta simple_mean sample_table (lit "Chennai") 2021).
  exists (station "Chennai" 2021 4 6). split; [|split; reflexivity].
  apply list_elem_of_In. simpl. left. reflexivity.
Defined.


(** ** The panels *)

(** C3 (the code breaks it): a row without DeltaWL is labelled Stable, not
    left blank. Over [sample_table] the trend table is shown, and its row
    for Chennai in 2020, the first year of the district, has a missing
    DeltaWL and the label of a zero change. *)
Theorem trend_of_missing_delta_is_stable :
  trend nan = stable_label /\
  exists t,
    st_dataframe_trend t ∈ recharge_panel simple_mean sample_table /\
    first_year_trend_row ∈ t.
Proof.
  split; [reflexivity|]. eexists. split.
  - apply list_elem_of_In. vm_compute. do 3 right. left. reflexivity.
  - apply list_elem_of_In. vm_compute. left. reflexivity.
Qed.

(** The rows of a group of [avg_depth] are the rows of the station. *)
Lemma in_group_station d lat lon r :
  is_nan lat = false -> is_nan lon = false ->
  in_group key_station cmp_station (d, lat, lon) r
  = (bool_decide (Reading.District r = Some d) &&
     (Reading.Latitude r =? lat)%float &&
     (Reading.Longitude r =? lon)%float)%bool.
Proof.
  intros Nlat Nlon. unfold in_group, key_station.
  destruct (Reading.District r) as [d'|];
    [|by rewrite bool_decide_eq_false_2].
  destruct (is_nan (Reading.Latitude r)) eqn:N1.
  { simpl. by rewrite (eqb_nan_l _ lat N1), andb_false_r. }
  destruct (is_nan (Reading.Longitude r)) eqn:N2.
  { simpl. by rewrite (eqb_nan_l _ lon N2), andb_false_r. }
  simpl. unfold cmp_station. simpl.
  rewrite <- (cmp_float_eqb _ _ N1 Nlat), <- (cmp_float_eqb _ _ N2 Nlon).
  destruct (PyStr.compare d' d) eqn:C.
  - apply compare_eq_iff in C as ->. rewrite bool_decide_eq_true_2 by done.
    simpl. by destruct (cmp_float (Reading.Latitude r) lat).
  - rewrite bool_decide_eq_false_2; [done|].
    intros [= ->]. by rewrite (proj2 (compare_eq_iff d d) eq_refl) in C.
  - rewrite bool_decide_eq_false_2; [done|].
    intros [= ->]. by rewrite (proj2 (compare_eq_iff d d) eq_refl) in C.
Qed.

(** A marker has the coordinates of a station with rows, shows the mean
    Minimum of the rows of that station, and is colored by it. *)
Lemma marker_of_station mean df mk :
  mk ∈ markers mean df ->
  exists d lat lon,
    location mk = (lat, lon) /\
    station_rows df d lat lon <> [] /\
    popup mk = (d, mean (Reading.Minimum <$> station_rows df d lat lon)) /\
    color mk = marker_color
                 (mean (Reading.Minimum <$> station_rows df d lat lon)).
Proof.
  unfold markers, avg_depth, groupby. rewrite <- !list_fmap_compose.
  intros ([[d lat] lon] & -> & I)%list_elem_of_fmap.
  apply group_keys_from_rows in I as (r & I & K).
  unfold compose. simpl. unfold key_station in K.
  destruct (Reading.District r) as [d'|] eqn:D; [|done].
  destruct (is_nan (Reading.Latitude r)) eqn:N1; [done|].
  destruct (is_nan (Reading.Longitude r)) eqn:N2; [done|].
  injection K as <- <- <-.
  assert (List.filter (in_group key_station cmp_station
                         (d', Reading.Latitude r, Reading.Longitude r))
            (rows df)
          = station_rows df d' (Reading.Latitude r) (Reading.Longitude r))
    as ->.
  { unfold station_rows. apply List.filter_ext. intros r'.
    by apply in_group_station. }
  exists d', (Reading.Latitude r), (Reading.Longitude r).
  split; [done|]. split; [|done].
  intros E.
  assert (r ∈ station_rows df d' (Reading.Latitude r) (Reading.Longitude r))
    as X.
  { unfold station_rows. apply list_elem_of_In, List.filter_In.
    split; [by apply list_elem_of_In|].
    rewrite bool_decide_eq_true_2 by done.
    by rewrite !eqb_refl. }
  rewrite E in X. by apply elem_of_nil in X.
Qed.

(** The map the panel shows holds the markers of the stations. *)
Lemma spatial_panel_map mean df center zoom ms :
  st_folium center zoom ms ∈ (spatial_panel mean df).1 ->
  ms = markers mean df.
Proof.
  unfold spatial_panel. destruct (valid_location _); simpl.
  - rewrite !elem_of_cons. intros [?|[?|[[= _ _ ->]|[]%elem_of_nil]]]; done.
  - rewrite !elem_of_cons. intros [?|[?|[]%elem_of_nil]]; done.
Qed.

(** C4 as stated fails: the marker of a station whose mean Minimum is below
    5 is not red. *)
Lemma marker_below_five_not_red :
  ~ (forall mk, mk ∈ markers simple_mean sample_table ->
       color mk = if ((popup mk).2 <? 5)%float then lit "red"
                  else lit "blue").
Proof.
  intros H. specialize (H chennai_marker).
  assert (chennai_marker ∈ markers simple_mean sample_table) as I
    by (apply list_elem_of_In; vm_compute; left; reflexivity).
  specialize (H I). vm_compute in H. discriminate.
Qed.

(** C4, amended: every marker of the map the panel shows stands for one
    station, a district at a pair of coordinates with at least one row of
    the filtered table. The depth in its popup is the mean of the Minimum
    over the rows of that station (the rows of the district at these
    coordinates), and the marker is blue when this mean is below 5 and red
    otherwise (a missing mean included). *)
Theorem marker_color_by_depth mean df center zoom ms mk :
  st_folium center zoom ms ∈ (spatial_panel mean df).1 ->
  mk ∈ ms ->
  exists d lat lon,
    location mk = (lat, lon) /\
    station_rows df d lat lon <> [] /\
    let depth := mean (Reading.Minimum <$> station_rows df d lat lon) in
    popup mk = (d, depth) /\
    color mk = if (depth <? 5)%float then lit "blue" else lit "red".
Proof.
  intros ->%spatial_panel_map I.
  destruct (marker_of_station _ _ _ I) as (d & lat & lon & ? & ? & ? & ?).
  exists d, lat, lon. done.
Qed.

Lemma marker_color_by_depth_witness :
  exists d lat lon,
    location chennai_marker = (lat, lon) /\
    station_rows sample_table d lat lon <> [] /\
    let depth :=
      simple_mean (Reading.Minimum <$> station_rows sample_table d lat lon) in
    popup chennai_marker = (d, depth) /\
    color chennai_marker = if (depth <? 5)%float then lit "blue"
                           else lit "red".
Proof.
  apply (marker_color_by_depth simple_mean sample_table
           sample_center 7 (markers simple_mean sample_table)
           chennai_marker).
  - apply list_elem_of_In. vm_compute. do 2 right. left. reflexivity.
  - apply list_elem_of_In. vm_compute. left. reflexivity.
Defined.





(** * Further properties of the code *)

(** ** [normalize_df]: the Year column *)

Lemma columns_of_replicate_inv (key : pystr) (col : list value) d n :
  columns_of key d = replicate (S n) col ->
  columns_of key d <> [] /\ forall c, c ∈ columns_of key d -> c = col.
Proof.
  intros ->. split; [done|]. intros c. apply elem_of_replicate_eq.
Qed.


Lemma writes_digits_inj s ds ds' :
  writes_digits s ds -> writes_digits s ds' -> ds = ds'.
Proof.
  unfold writes_digits. intros W. revert ds'.
  induction W as [|c v s ds E W IH]; intros ds' W';
    inversion W' as [|? v' ? ds'' E' W'']; subst; [done|].
  f_equal; [congruence|by apply IH].
Qed.

(** X1: Whenever [normalize_df] returns, the frame it leaves has the length it
    had, and every Year column of it holds one and the same cell in every
    row: None when the filename has no digit character, and otherwise the
    integer that the digit characters of the filename, taken in order, write
    in base ten, the first of them in the highest place
    ("data_2020_v2.csv" gives 20202). *)
Theorem normalize_df_year h df filename df' h' d :
  h !! df = Some d ->
  normalize_df df filename h = Returns df' h' ->
  exists d' v,
    h' !! df' = Some d' /\
    index_len d' = index_len d /\
    columns_of (lit "Year") d' <> [] /\
    (forall col, col ∈ columns_of (lit "Year") d' ->
                 col = replicate (index_len d) v) /\
    match List.filter isdigit filename with
    | [] => v = VNone
    | year => exists ds, writes_digits year ds /\ v = VInt (base_ten ds)
    end.
Proof.
  intros E R.
  apply (normalize_df_returns _ _ _ _ _ _ E) in R as (-> & d' & F & ->).
  apply normalize_frame_inv in F as (v & Hv & W).
  exists d', v. rewrite lookup_insert_eq. split; [done|]. split.
  { by rewrite (with_coords_index_len _ _ W). }
  rewrite (with_coords_columns_other _ _ (lit "Year")
             ltac:(by apply lit_neq; vm_compute)
             ltac:(by apply lit_neq; vm_compute) W).
  destruct (columns_of_set_column_same (lit "Year")
              (replicate (index_len d) v) (normalize_headers d)) as [n C].
  destruct (columns_of_replicate_inv _ _ _ _ C) as [? ?].
  split; [done|]. split; [done|].
  destruct (List.filter isdigit filename) as [|c year]; [done|].
  destruct Hv as (n' & I & ->).
  apply int_spec in I as (_ & _ & _ & ds & Wd & ->). eauto.
Qed.

Lemma normalize_df_year_witness :
  exists d',
    heap_after (normalize_df 0%nat (lit "data_2020_v2.csv")
                  (heap_of sample_frame)) !! 0%nat = Some d' /\
    index_len d' = 2%nat /\
    columns_of (lit "Year") d' <> [] /\
    forall col, col ∈ columns_of (lit "Year") d' ->
                col = [VInt 20202; VInt 20202].
Proof.
  assert (E : heap_of sample_frame !! 0%nat = Some sample_frame)
    by (vm_compute; reflexivity).
  assert (R : normalize_df 0%nat (lit "data_2020_v2.csv")
                (heap_of sample_frame) =
              Returns 0%nat
                (heap_after (normalize_df 0%nat (lit "data_2020_v2.csv")
                               (heap_of sample_frame))))
    by (vm_compute; reflexivity).
  destruct (normalize_df_year _ _ _ _ _ _ E R) as (d' & v & L & N & C & A & Y).
  assert (F : List.filter isdigit (lit "data_2020_v2.csv") = lit "20202")
    by (vm_compute; reflexivity).
  rewrite F in Y. destruct Y as (ds & Wd & ->).
  assert (W0 : writes_digits (lit "20202") [2; 0; 2; 0; 2])
    by (repeat constructor).
  rewrite (writes_digits_inj _ _ _ Wd W0) in A.
  exists d'. split; [exact L|]. split; [exact N|]. split; [exact C|].
  exact A.
Defined.

(** ** [normalize_df]: when it raises and when it returns *)

(** X2: A filename with a digit character that is no decimal digit makes
    [normalize_df] raise ValueError, whatever the frame. *)
Theorem normalize_df_digit_not_decimal_raises h df filename d c :
  h !! df = Some d ->
  c ∈ filename -> isdigit c = true -> isdecimal c = false ->
  normalize_df df filename h = Raises ValueError.
Proof.
  intros E I D N. rewrite (normalize_df_run _ _ _ _ E).
  unfold normalize_frame, with_year.
  assert (c ∈ List.filter isdigit filename) as X.
  { apply list_elem_of_In, List.filter_In.
    split; [by apply list_elem_of_In|done]. }
  destruct (List.filter isdigit filename) as [|a year];
    [by apply elem_of_nil in X|].
  by rewrite (int_not_decimal _ _ X N).
Qed.

Lemma normalize_df_digit_not_decimal_raises_witness :
  normalize_df 0%nat superscript_filename (heap_of sample_frame)
  = Raises ValueError.
Proof.
  apply (normalize_df_digit_not_decimal_raises (heap_of sample_frame) 0%nat
           superscript_filename sample_frame 178%N).
  - vm_compute. reflexivity.
  - apply list_elem_of_In. vm_compute. tauto.
  - vm_compute. reflexivity.
  - vm_compute. reflexivity.
Defined.

Lemma with_year_readable filename d :
  year_readable filename = true ->
  exists v, with_year filename d
            = inr (set_column (lit "Year") (replicate (index_len d) v) d).
Proof.
  unfold year_readable. intros [A L%Nat.leb_le]%andb_prop. unfold with_year.
  destruct (List.filter isdigit filename) as [|c year] eqn:F; [eauto|].
  destruct (int_decimal (c :: year) ltac:(done) A L) as [n ->]. eauto.
Qed.

Lemma with_year_unreadable filename d :
  year_readable filename = false ->
  with_year filename d = inl ValueError.
Proof.
  unfold year_readable, with_year. intros A.
  destruct (List.filter isdigit filename) as [|c year] eqn:F; [done|].
  destruct (PyStr.int (c :: year)) as [n|] eqn:I; [|done].
  apply int_spec in I as (_ & D & L%Nat.leb_le & _).
  by rewrite D, L in A.
Qed.

(** X3: [normalize_df] returns exactly when [int] can read the digit
    characters of the filename (every one a decimal digit, and no more than
    the 4300 that CPython converts) and either both coordinate headers are
    there or there is exactly one District column to derive them from. *)
Theorem normalize_df_returns_iff h df filename d :
  h !! df = Some d ->
  (exists h', normalize_df df filename h = Returns df h') <->
  forallb isdecimal (List.filter isdigit filename) = true /\
  (length (List.filter isdigit filename) <= 4300)%nat /\
  (lacks_coords (normalize_headers d) = false \/
   exists dist, columns_of (lit "District") (normalize_headers d) = [dist]).
Proof.
  intros E. rewrite (normalize_df_run _ _ _ _ E). unfold normalize_frame.
  assert (year_readable filename = true <->
          forallb isdecimal (List.filter isdigit filename) = true /\
          (length (List.filter isdigit filename) <= 4300)%nat) as RD.
  { unfold year_readable, int_max_str_digits. cbv zeta.
    rewrite andb_true_iff, Nat.leb_le. reflexivity. }
  destruct (year_readable filename) eqn:A.
  - destruct (proj1 RD eq_refl) as [A1 A2].
    destruct (with_year_readable filename (normalize_headers d) A) as [v ->].
    unfold with_coords. rewrite lacks_coords_with_year.
    rewrite columns_of_set_column_other by (by apply lit_neq; vm_compute).
    destruct (lacks_coords (normalize_headers d)).
    + destruct (columns_of (lit "District") (normalize_headers d))
        as [|dist [|? ?]].
      * split; [by intros [? ?]|]. intros (_ & _ & [?|[? ?]]); done.
      * split; [|eauto]. intros _. repeat split; try done. right. eauto.
      * split; [by intros [? ?]|]. intros (_ & _ & [?|[? ?]]); done.
    + split; [|eauto]. intros _. repeat split; try done. by left.
  - rewrite (with_year_unreadable _ _ A).
    split; [by intros [? ?]|]. intros (A1 & A2 & _).
    discriminate (proj2 RD (conj A1 A2)).
Qed.

Lemma normalize_df_returns_iff_witness :
  (exists h', normalize_df 0%nat sample_filename (heap_of sample_frame)
              = Returns 0%nat h') <->
  forallb isdecimal (List.filter isdigit sample_filename) = true /\
  (length (List.filter isdigit sample_filename) <= 4300)%nat /\
  (lacks_coords (normalize_headers sample_frame) = false \/
   exists dist,
     columns_of (lit "District") (normalize_headers sample_frame) = [dist]).
Proof.
  apply (normalize_df_returns_iff (heap_of sample_frame) 0%nat
           sample_filename sample_frame).
  vm_compute. reflexivity.
Defined.

(** X4: Without a District column there is nothing to derive coordinates
    from: when a coordinate header is missing and no header is District,
    [normalize_df] raises KeyError, the filename being one whose digits
    [int] can read (all decimal, no more than 4300). *)
Theorem normalize_df_no_district_raises h df filename d :
  h !! df = Some d ->
  forallb isdecimal (List.filter isdigit filename) = true ->
  (length (List.filter isdigit filename) <= 4300)%nat ->
  lacks_coords (normalize_headers d) = true ->
  lit "District" ∉ header <$> labels d ->
  normalize_df df filename h = Raises KeyError.
Proof.
  intros E A1 A2 L N. rewrite (normalize_df_run _ _ _ _ E).
  unfold normalize_frame.
  assert (year_readable filename = true) as A.
  { unfold year_readable. rewrite A1. by apply Nat.leb_le. }
  destruct (with_year_readable filename (normalize_headers d) A) as [v ->].
  unfold with_coords. rewrite lacks_coords_with_year, L.
  rewrite columns_of_set_column_other by (by apply lit_neq; vm_compute).
  rewrite columns_of_absent; [done|].
  apply has_label_false. by rewrite normalize_headers_labels.
Qed.

Lemma normalize_df_no_district_raises_witness :
  normalize_df 0%nat sample_filename (heap_of no_district_frame)
  = Raises KeyError.
Proof.
  apply (normalize_df_no_district_raises (heap_of no_district_frame) 0%nat
           sample_filename no_district_frame).
  - vm_compute. reflexivity.
  - vm_compute. reflexivity.
  - apply Nat.leb_le. vm_compute. reflexivity.
  - vm_compute. reflexivity.
  - intros H%list_elem_of_In. vm_compute in H.
    destruct H as [H|[H|[]]]; discriminate.
Defined.

(** ** [normalize_df]: the cells it keeps *)



(** X5: Apart from Year, and from Latitude and Longitude when they are
    injected, [normalize_df] keeps the cells of every column: under a
    header of the frame it leaves are the columns of the file whose cleaned
    and renamed header it is, in their order. *)
Theorem normalize_df_keeps_cells h df filename df' h' d key :
  h !! df = Some d ->
  normalize_df df filename h = Returns df' h' ->
  key <> lit "Year" ->
  (lacks_coords (normalize_headers d) = true ->
   key <> lit "Latitude" /\ key <> lit "Longitude") ->
  exists d', h' !! df' = Some d' /\
    columns_of key d'
    = (List.filter (fun c => PyStr.eqb (header c.1) key) (data d)).*2.
Proof.
  intros E R NY NC.
  apply (normalize_df_returns _ _ _ _ _ _ E) in R as (-> & d' & F & ->).
  apply normalize_frame_inv in F as (v & _ & W).
  exists d'. rewrite lookup_insert_eq. split; [done|].
  rewrite <- columns_of_normalize_headers.
  apply with_coords_inv in W as [[_ ->]|(L & dist & _ & ->)].
  - by rewrite columns_of_set_column_other.
  - rewrite lacks_coords_with_year in L. destruct (NC L) as [N1 N2].
    by rewrite !columns_of_set_column_other.
Qed.

Lemma normalize_df_keeps_cells_witness :
  exists d',
    heap_after (normalize_df 0%nat sample_filename (heap_of located_frame))
      !! 0%nat = Some d' /\
    columns_of (lit "Latitude") d'
    = (List.filter (fun c => PyStr.eqb (header c.1) (lit "Latitude"))
         (data located_frame)).*2.
Proof.
  apply (normalize_df_keeps_cells (heap_of located_frame) 0%nat
           sample_filename 0%nat _ located_frame (lit "Latitude")).
  - vm_compute. reflexivity.
  - vm_compute. reflexivity.
  - apply lit_neq. vm_compute. reflexivity.
  - vm_compute. discriminate.
Defined.

(** ** [normalize_df]: a second call changes nothing *)

Lemma lstrip_length s : (length (lstrip s) <= length s)%nat.
Proof.
  induction s as [|c s IH]; simpl; [lia|]. destruct (isspace c); simpl; lia.
Qed.

Lemma lstrip_fixed s :
  lstrip s = s <-> match s with [] => True | c :: _ => isspace c = false end.
Proof.
  destruct s as [|c s]; [done|]. simpl. destruct (isspace c) eqn:E.
  - split; [|done]. intros H. pose proof (lstrip_length s) as L.
    rewrite H in L. simpl in L. lia.
  - done.
Qed.

Lemma lstrip_idem s : lstrip (lstrip s) = lstrip s.
Proof.
  induction s as [|c s IH]; [done|]. simpl.
  destruct (isspace c) eqn:E; [done|]. simpl. by rewrite E.
Qed.

Lemma lstrip_suffix s : exists sp, s = sp ++ lstrip s.
Proof.
  induction s as [|c s [sp IH]]; [by exists []|]. simpl.
  destruct (isspace c); [|by exists []].
  exists (c :: sp). simpl. by f_equal.
Qed.

(** A stripped string has no white space at either end. *)
Lemma strip_edges s :
  lstrip (strip s) = strip s /\ lstrip (rev (strip s)) = rev (strip s).
Proof.
  unfold strip, rstrip. split.
  - set (t := lstrip s). assert (lstrip t = t) as Ht by apply lstrip_idem.
    destruct (lstrip_suffix (rev t)) as [sp Hsp].
    assert (t = rev (lstrip (rev t)) ++ rev sp) as Et.
    { rewrite <- (rev_involutive t) at 1. rewrite Hsp at 1.
      by rewrite rev_app_distr. }
    apply lstrip_fixed. apply lstrip_fixed in Ht.
    destruct (rev (lstrip (rev t))) as [|a p]; [done|].
    rewrite Et in Ht. exact Ht.
  - rewrite rev_involutive. apply lstrip_idem.
Qed.

Lemma strip_fixed s :
  lstrip s = s -> lstrip (rev s) = rev s -> strip s = s.
Proof.
  intros H1 H2. unfold strip, rstrip. rewrite H1, H2. apply rev_involutive.
Qed.

Lemma isspace_newline_to_space c :
  isspace (if N.eqb c 10 then 32%N else c) = isspace c.
Proof. by destruct (N.eqb_spec c 10) as [->|N]. Qed.

Lemma lstrip_replace s :
  lstrip (replace_char 10%N 32%N s) = replace_char 10%N 32%N (lstrip s).
Proof.
  unfold replace_char. induction s as [|c s IH]; [done|].
  cbn [List.map lstrip]. rewrite isspace_newline_to_space.
  destruct (isspace c); [exact IH|done].
Qed.

Lemma replace_idem s :
  replace_char 10%N 32%N (replace_char 10%N 32%N s) = replace_char 10%N 32%N s.
Proof.
  unfold replace_char. rewrite List.map_map. apply List.map_ext.
  intros c. by destruct (N.eqb_spec c 10) as [->|N]; [|rewrite (proj2 (N.eqb_neq c 10) N)].
Qed.

Lemma rev_replace a b s :
  rev (replace_char a b s) = replace_char a b (rev s).
Proof. unfold replace_char. symmetry. apply List.map_rev. Qed.

(** Cleaning a cleaned header changes nothing. *)
Lemma clean_label_idem c : clean_label (clean_label c) = clean_label c.
Proof.
  unfold clean_label. destruct (strip_edges c) as [H1 H2].
  rewrite strip_fixed.
  - apply replace_idem.
  - by rewrite lstrip_replace, H1.
  - by rewrite rev_replace, lstrip_replace, H2.
Qed.

Lemma header_of_renamed :
  header (lit "Wells_Monitored") = lit "Wells_Monitored" /\
  header (lit "SNo") = lit "SNo".
Proof. vm_compute. done. Qed.

Lemma header_idem c : header (header c) = header c.
Proof.
  assert (header c = default (clean_label c) (rename_map !! clean_label c))
    as Hc by reflexivity.
  destruct (rename_map !! clean_label c) as [r|] eqn:E; cbn [default] in Hc;
    rewrite Hc.
  - unfold rename_map in E. apply elem_of_list_to_map_2 in E.
    rewrite !elem_of_cons in E.
    destruct E as [E|[E|E]]; [| |by apply elem_of_nil in E];
      apply (f_equal snd) in E; cbn [snd] in E; subst r;
      apply header_of_renamed.
  - unfold header. by rewrite clean_label_idem, E.
Qed.

Lemma relabel_same d : relabel (labels d) d = d.
Proof.
  destruct d as [n cs]. unfold relabel, labels. simpl. f_equal.
  induction cs as [|[l c] cs IH]; [done|]. simpl. f_equal. exact IH.
Qed.

Lemma set_column_labels_inv key col d c :
  c ∈ labels (set_column key col d) -> c ∈ labels d \/ c = key.
Proof.
  rewrite set_column_labels. destruct (has_label key d); [by left|].
  intros [?|I]%elem_of_app; [by left|right].
  by apply list_elem_of_singleton in I.
Qed.

(** Assigning a column that is already there changes nothing. *)
Lemma set_column_same key col d :
  has_label key d = true ->
  (forall c, c ∈ columns_of key d -> c = col) ->
  set_column key col d = d.
Proof.
  intros P A. destruct d as [n cs]. unfold set_column. rewrite P. simpl.
  f_equal. unfold columns_of in A. simpl in A. clear P.
  induction cs as [|[l c] cs IH]; [done|]. simpl in *.
  destruct (PyStr.eqb l key) eqn:E.
  - apply eqb_true in E as ->. f_equal.
    + f_equal. symmetry. apply A. by left.
    + apply IH. intros c' I. apply A. by right.
  - f_equal. apply IH. intros c' I. by apply A.
Qed.

Lemma header_of_added :
  header (lit "Year") = lit "Year" /\
  header (lit "Latitude") = lit "Latitude" /\
  header (lit "Longitude") = lit "Longitude".
Proof. vm_compute. done. Qed.

Lemma with_coords_labels_inv d d' c :
  with_coords d = inr d' -> c ∈ labels d' ->
  c ∈ labels d \/ c = lit "Latitude" \/ c = lit "Longitude".
Proof.
  intros W I. apply with_coords_inv in W as [[_ ->]|(_ & dist & _ & ->)];
    [by left|].
  apply set_column_labels_inv in I as [I|?]; [|by right; right].
  apply set_column_labels_inv in I as [I|?]; [by left|by right; left].
Qed.

(** The frame [normalize_df] leaves is one it would leave unchanged. *)
Lemma normalize_frame_idem d filename d' :
  normalize_frame d filename = inr d' -> normalize_frame d' filename = inr d'.
Proof.
  intros F. pose proof F as F0.
  apply normalize_frame_inv in F as (v & Hv & W).
  change (index_len (normalize_headers d)) with (index_len d) in W.
  assert (normalize_headers d' = d') as N.
  { assert (header <$> labels d' = labels d') as HL;
      [|unfold normalize_headers; rewrite HL; apply relabel_same].
    transitivity (id <$> labels d'); [|apply list_fmap_id].
    apply list_fmap_ext. intros i c Hc. apply list_elem_of_lookup_2 in Hc.
    unfold id.
    apply (with_coords_labels_inv _ _ _ W) in Hc as [Hc|[->| ->]];
      [|apply header_of_added..].
    apply set_column_labels_inv in Hc as [Hc| ->]; [|apply header_of_added].
    rewrite normalize_headers_labels in Hc.
    apply list_elem_of_fmap in Hc as (c0 & -> & _). apply header_idem. }
  assert (index_len d' = index_len d) as L
    by (by rewrite (with_coords_index_len _ _ W)).
  assert (with_year filename d' = inr d') as Y.
  { assert (set_column (lit "Year") (replicate (index_len d') v) d' = d')
      as S.
    { apply set_column_same.
      - apply has_label_true, (with_coords_keeps_labels _ _ _ W).
        apply has_label_true, has_label_set_column_same.
      - rewrite (with_coords_columns_other _ _ (lit "Year")
                   ltac:(by apply lit_neq; vm_compute)
                   ltac:(by apply lit_neq; vm_compute) W).
        destruct (columns_of_set_column_same (lit "Year")
                    (replicate (index_len d) v) (normalize_headers d))
          as [n ->].
        intros c ->%elem_of_replicate_eq. by rewrite L. }
    unfold with_year.
    destruct (List.filter isdigit filename) as [|c year].
    - subst v. by rewrite S.
    - destruct Hv as (n & -> & ->). by rewrite S. }
  unfold normalize_frame. rewrite N, Y. unfold with_coords, lacks_coords.
  destruct (with_coords_has_coords _ _ W) as [-> ->]. done.
Qed.

(** X6: Calling [normalize_df] again on the frame it returned, with the same
    filename, returns the same reference and leaves the heap as it is. *)
Theorem normalize_df_twice h df filename df' h' :
  is_Some (h !! df) ->
  normalize_df df filename h = Returns df' h' ->
  normalize_df df' filename h' = Returns df' h'.
Proof.
  intros [d E] R.
  apply (normalize_df_returns _ _ _ _ _ _ E) in R as (-> & d' & F & ->).
  rewrite (normalize_df_run _ _ d') by apply lookup_insert_eq.
  rewrite (normalize_frame_idem _ _ _ F). by rewrite insert_insert_eq.
Qed.

Lemma normalize_df_twice_witness :
  normalize_df 0%nat sample_filename
    (heap_after (normalize_df 0%nat sample_filename (heap_of located_frame)))
  = Returns 0%nat
      (heap_after (normalize_df 0%nat sample_filename (heap_of located_frame))).
Proof.
  apply (normalize_df_twice (heap_of located_frame) 0%nat sample_filename).
  - exists located_frame. vm_compute. reflexivity.
  - vm_compute. reflexivity.
Defined.

(** ** [calc_stats]: its rows *)

(** X7: [calc_stats] gives one row for every district and year that some row of
    the table has together, and no other: rows with a missing District or
    Year count nowhere. The rows come by district, then by year, and their
    means and medians are taken over the rows of that district and year. *)
Theorem calc_stats_rows mean median df :
  StronglySorted
    (fun a b => cmp_district_year (Stats.District a, Stats.Year a)
                  (Stats.District b, Stats.Year b) = Lt)
    (calc_stats mean median df) /\
  (forall d y, present df d y <->
     exists row, row ∈ calc_stats mean median df /\
                 Stats.District row = d /\ Stats.Year row = y) /\
  (forall row, row ∈ calc_stats mean median df ->
     let g := rows_of df (Stats.District row) (Stats.Year row) in
     Stats.Mean_Min row = mean (Reading.Minimum <$> g) /\
     Stats.Mean_Max row = mean (Reading.Maximum <$> g) /\
     Stats.Median_Min row = median (Reading.Minimum <$> g) /\
     Stats.Median_Max row = median (Reading.Maximum <$> g)).
Proof.
  unfold calc_stats, groupby. rewrite <- list_fmap_compose.
  split; [|split].
  - eapply StronglySorted_fmap;
      [|apply (group_keys_sorted _ _ cmp_district_year_eq
                 cmp_district_year_antisym cmp_district_year_trans)].
    intros [d y] [d' y'] L. exact L.
  - intros d y. split.
    + intros (r & I & D & Y). eexists. split.
      * apply list_elem_of_fmap. exists (d, y). split; [reflexivity|].
        apply (elem_of_group_keys _ _ cmp_district_year_eq). exists r.
        split; [done|]. by apply key_district_year_spec.
      * done.
    + intros (row & I & <- & <-).
      apply list_elem_of_fmap in I as ([d y] & -> & I).
      apply (elem_of_group_keys _ _ cmp_district_year_eq) in I
        as (r & I & K).
      apply key_district_year_spec in K. by exists r.
  - intros row I. apply list_elem_of_fmap in I as ([d y] & -> & I).
    unfold compose. simpl. by rewrite group_district_year_rows.
Qed.

(** ** The trend label *)

Lemma ltb_asym x y : (x <? y)%float = true -> (y <? x)%float = false.
Proof.
  rewrite ltb_compare. intros H. apply SFcompare_antisym in H.
  rewrite FloatAxioms.ltb_spec. unfold SFltb. by rewrite H.
Qed.

Lemma trend_labels_distinct :
  recharge_label <> decline_label /\ recharge_label <> stable_label /\
  decline_label <> stable_label.
Proof. vm_compute. repeat split; discriminate. Qed.

(** X8: The label is Recharge exactly for a DeltaWL above zero, Decline exactly
    for one below zero, and Stable for every other: zero, and the missing
    DeltaWL of a first year. *)
Theorem trend_label_cases x :
  (trend x = recharge_label <-> (0 <? x)%float = true) /\
  (trend x = decline_label <-> (x <? 0)%float = true) /\
  (trend x = stable_label <->
     (0 <? x)%float = false /\ (x <? 0)%float = false).
Proof.
  destruct trend_labels_distinct as (N1 & N2 & N3).
  unfold trend. destruct (0 <? x)%float eqn:P.
  - rewrite (ltb_asym _ _ P). repeat split; try done.
    by intros [? _].
  - destruct (x <? 0)%float eqn:Q; repeat split; try done;
      try (intros H; by symmetry in H).
    by intros [_ ?].
Qed.

(** ** The recharge panel without a second year *)

Lemma yearly_change_first_years mean df :
  (forall d y y', present df d y -> present df d y' -> y = y') ->
  forall row, row ∈ yearly_change mean df -> Change.DeltaWL row = nan.
Proof.
  intros One row I. unfold yearly_change in I. simpl in I.
  pose proof (yearly_minimum_sorted mean df) as S.
  apply elem_of_diff_rows in I as (pre & [[d y] m] & post & E & ->).
  simpl. rewrite E in S.
  pose proof S as (Lt' & Spre & _)%StronglySorted_app.
  pose proof (latest_of_sorted pre d Spre) as Latest.
  destruct (foldl _ ∅ pre !! d) as [p|]; [|done].
  destruct Latest as (y1 & I1 & _). exfalso.
  assert (cmp_district_year (d, y1) (d, y) = Lt) as L
    by (apply (Lt' (d, y1, p) (d, y, m) I1); by left).
  apply cmp_same_district in L.
  assert (present df d y1) as P1.
  { apply (elem_of_yearly_minimum mean df d y1 p). rewrite E.
    apply elem_of_app. by left. }
  assert (present df d y) as P.
  { apply (elem_of_yearly_minimum mean df d y m). rewrite E.
    apply elem_of_app. right. by left. }
  specialize (One _ _ _ P1 P). lia.
Qed.

(** X9: When no district has rows of two different years, the recharge panel
    shows neither table nor chart: after its two group-by steps it shows
    the message that there is not enough yearly data. *)
Theorem recharge_panel_single_years mean df :
  (forall d y y', present df d y -> present df d y' -> y = y') ->
  recharge_panel mean df
  = [ st_subheader (lit "Recharge / Decline Analysis");
      pd_groupby [lit "District"; lit "Year"];
      pd_groupby [lit "District"];
      st_info ([9888; 65039; 32]%N ++
        lit "Not enough yearly data to calculate recharge/decline.") ].
Proof.
  intros One. unfold recharge_panel.
  assert (forallb (fun r => is_nan (Change.DeltaWL r)) (yearly_change mean df)
          = true) as ->; [|done].
  apply forallb_forall. intros row I%list_elem_of_In.
  by rewrite (yearly_change_first_years mean df One row I).
Qed.

Lemma present_single_year_table d y :
  present single_year_table d y ->
  (d = lit "Chennai" /\ y = 2021) \/ (d = lit "Salem" /\ y = 2020).
Proof.
  intros (r & I & D & Y). apply list_elem_of_In in I. simpl in I.
  destruct I as [<-|[<-|[<-|[]]]]; simpl in D, Y;
    injection D as <-; injection Y as <-; auto.
Qed.

Lemma recharge_panel_single_years_witness :
  recharge_panel simple_mean single_year_table
  = [ st_subheader (lit "Recharge / Decline Analysis");
      pd_groupby [lit "District"; lit "Year"];
      pd_groupby [lit "District"];
      st_info ([9888; 65039; 32]%N ++
        lit "Not enough yearly data to calculate recharge/decline.") ].
Proof.
  apply (recharge_panel_single_years simple_mean single_year_table).
  intros d y y' P P'.
  apply present_single_year_table in P as [[-> ->]|[-> ->]];
    apply present_single_year_table in P' as [[E ->]|[E ->]];
    try reflexivity; vm_compute in E; discriminate.
Defined.

(** ** The sidebar filters *)

Lemma Z_compare_antisym a b : Z.compare b a = CompOpp (Z.compare a b).
Proof. apply Z.compare_antisym. Qed.

Lemma Z_compare_trans a b c :
  Z.compare a b = Lt -> Z.compare b c = Lt -> Z.compare a c = Lt.
Proof. rewrite !Z.compare_lt_iff. lia. Qed.

Lemma year_options_spec df_all y :
  y ∈ year_options df_all <->
  exists r, r ∈ rows df_all /\ Reading.Year r = Some y.
Proof. apply (elem_of_group_keys _ _ Z.compare_eq_iff). Qed.

Lemma district_options_spec df_all d :
  d ∈ district_options df_all <->
  exists r, r ∈ rows df_all /\ Reading.District r = Some d.
Proof. apply (elem_of_group_keys _ _ compare_eq_iff). Qed.

(** X10: The options of the two selectors: the years, and the districts, that
    some row has, each once and in ascending order. *)
Theorem filter_options df_all :
  (forall y, y ∈ year_options df_all <->
             exists r, r ∈ rows df_all /\ Reading.Year r = Some y) /\
  (forall d, d ∈ district_options df_all <->
             exists r, r ∈ rows df_all /\ Reading.District r = Some d) /\
  StronglySorted Z.lt (year_options df_all) /\
  StronglySorted (fun a b => PyStr.compare a b = Lt)
    (district_options df_all).
Proof.
  split; [|split; [|split]].
  - apply year_options_spec.
  - apply district_options_spec.
  - apply (group_keys_sorted _ _ Z.compare_eq_iff Z_compare_antisym
             Z_compare_trans).
  - apply (group_keys_sorted _ _ compare_eq_iff compare_antisym
             compare_trans).
Qed.

Lemma isin_true {A} `{EqDecision A} (values : list A) cell :
  isin values cell = true <-> exists v, cell = Some v /\ v ∈ values.
Proof.
  unfold isin. destruct cell as [v|].
  - rewrite bool_decide_eq_true. split; [eauto|]. by intros (? & [= <-] & ?).
  - split; [done|]. by intros (? & ? & _).
Qed.

(** A district and year are present in the filtered table exactly when
    they are present in the whole table and both are selected, so the
    panels compute over the selected years and districts only. *)
Theorem present_filtered selected_years selected_districts df_all d y :
  present (df_filtered selected_years selected_districts df_all) d y <->
  present df_all d y /\ y ∈ selected_years /\ d ∈ selected_districts.
Proof.
  unfold present, df_filtered. simpl. split.
  - intros (r & I & D & Y).
    apply list_elem_of_In, List.filter_In in I as [I B].
    apply andb_prop in B as [By Bd].
    apply isin_true in By as (y' & Ey & ?). apply isin_true in Bd as (d' & Ed & ?).
    split; [exists r; split; [by apply list_elem_of_In|done]|].
    split; congruence.
  - intros [(r & I & D & Y) [Iy Id]]. exists r. split; [|done].
    apply list_elem_of_In, List.filter_In. split; [by apply list_elem_of_In|].
    rewrite D, Y. simpl. by rewrite !bool_decide_eq_true_2.
Qed.

(** X11: With the default selection (every option of both selectors), the
    filter keeps exactly the rows that have a Year and a District: the rows
    of a file whose name held no digit are dropped, and so are rows
    without District. *)
Theorem default_filter_rows df_all :
  rows (df_filtered (year_options df_all) (district_options df_all) df_all)
  = List.filter (fun r => (bool_decide (is_Some (Reading.Year r))
                           && bool_decide (is_Some (Reading.District r)))%bool)
      (rows df_all).
Proof.
  unfold df_filtered. simpl. apply List.filter_ext_in. intros r I.
  apply list_elem_of_In in I.
  pose proof (year_options_spec df_all) as Hy.
  pose proof (district_options_spec df_all) as Hd.
  f_equal.
  - destruct (Reading.Year r) as [y|] eqn:Y; simpl.
    + rewrite (bool_decide_eq_true_2 (y ∈ year_options df_all))
        by (apply Hy; by exists r).
      done.
    + done.
  - destruct (Reading.District r) as [d|] eqn:D; simpl.
    + rewrite (bool_decide_eq_true_2 (d ∈ district_options df_all))
        by (apply Hd; by exists r).
      done.
    + done.
Qed.

(** ** The yearly means of the bar and line charts *)

Lemma in_group_year y r :
  in_group Reading.Year Z.compare y r
  = bool_decide (Reading.Year r = Some y).
Proof.
  destruct (in_group Reading.Year Z.compare y r) eqn:G; symmetry.
  - apply bool_decide_eq_true.
    by apply (in_group_spec _ _ Z.compare_eq_iff) in G.
  - apply bool_decide_eq_false. intros G'.
    apply (in_group_spec _ _ Z.compare_eq_iff) in G'. congruence.
Qed.

(** X12: The table behind the yearly bar chart and the state-wise line chart
    has one row for every year some row has, in ascending order, with the
    means of Minimum and Maximum over all rows of that year, whatever their
    District (a row without District counts, a row without Year does
    not). *)
Theorem yearly_means_rows mean df :
  StronglySorted (fun a b : Z * float * float => a.1.1 < b.1.1)
    (yearly_means mean df) /\
  forall y mn mx,
    (y, mn, mx) ∈ yearly_means mean df <->
    (exists r, r ∈ rows df /\ Reading.Year r = Some y) /\
    let g := List.filter (fun r => bool_decide (Reading.Year r = Some y))
               (rows df) in
    mn = mean (Reading.Minimum <$> g) /\ mx = mean (Reading.Maximum <$> g).
Proof.
  unfold yearly_means, groupby. rewrite <- list_fmap_compose. split.
  - eapply StronglySorted_fmap;
      [|apply (group_keys_sorted _ _ Z.compare_eq_iff Z_compare_antisym
                 Z_compare_trans)].
    intros a b L. unfold compose. simpl. by apply Z.compare_lt_iff.
  - intros y mn mx. rewrite list_elem_of_fmap. unfold compose. simpl.
    rewrite <- (List.filter_ext _ _ (in_group_year y)). split.
    + intros (y' & [= -> -> ->] & I).
      by apply (elem_of_group_keys _ _ Z.compare_eq_iff) in I.
    + intros (I & -> & ->). exists y. split; [done|].
      by apply (elem_of_group_keys _ _ Z.compare_eq_iff).
Qed.

(** ** The markers of the map *)



(** X13: Every marker of the map stands at the coordinates of a row of its
    district, and neither coordinate is missing: rows without District or
    without a coordinate give no marker. Its radius is 6 and it is
    filled. *)
Theorem markers_located mean df mk :
  mk ∈ markers mean df ->
  (exists r, r ∈ rows df /\
     Reading.District r = Some (popup mk).1 /\
     location mk = (Reading.Latitude r, Reading.Longitude r)) /\
  is_nan (location mk).1 = false /\ is_nan (location mk).2 = false /\
  radius mk = 6 /\ fill mk = true.
Proof.
  unfold markers, avg_depth, groupby. rewrite <- !list_fmap_compose.
  intros ([[d lat] lon] & -> & I)%list_elem_of_fmap.
  apply group_keys_from_rows in I as (r & I & K).
  unfold compose. simpl. unfold key_station in K.
  destruct (Reading.District r) as [d'|] eqn:D; [|done].
  destruct (is_nan (Reading.Latitude r)) eqn:N1; [done|].
  destruct (is_nan (Reading.Longitude r)) eqn:N2; [done|].
  injection K as <- <- <-. repeat split; try done.
  exists r. by rewrite D.
Qed.

Lemma markers_located_witness :
  (exists r, r ∈ rows sample_table /\
     Reading.District r = Some (popup chennai_marker).1 /\
     location chennai_marker = (Reading.Latitude r, Reading.Longitude r)) /\
  is_nan (location chennai_marker).1 = false /\
  is_nan (location chennai_marker).2 = false /\
  radius chennai_marker = 6 /\ fill chennai_marker = true.
Proof.
  apply (markers_located simple_mean sample_table chennai_marker).
  apply list_elem_of_In. vm_compute. left. reflexivity.
Defined.

(** ** The upload loop *)

Lemma load_uploads_cons df name rest h :
  load_uploads ((df, name) :: rest) h
  = match normalize_df df name h with
    | Returns df' h1 =>
        match load_uploads rest h1 with
        | Returns dfs h2 => Returns (df' :: dfs) h2
        | Raises e => Raises e
        end
    | Raises e => Raises e
    end.
Proof.
  simpl. unfold mbind, M_bind. destruct (normalize_df df name h); [|done].
  by destruct (load_uploads rest h0).
Qed.

(** X14: When every uploaded file normalizes, the loop returns the references
    of the files in their order; behind each is its normalized frame, and
    every other object of the heap is as it was. *)
Theorem load_uploads_returns files h :
  NoDup files.*1 ->
  (forall df name, (df, name) ∈ files ->
     exists d d', h !! df = Some d /\ normalize_frame d name = inr d') ->
  exists h',
    load_uploads files h = Returns files.*1 h' /\
    (forall df name, (df, name) ∈ files ->
       exists d d', h !! df = Some d /\ normalize_frame d name = inr d' /\
                    h' !! df = Some d') /\
    (forall r, r ∉ files.*1 -> h' !! r = h !! r).
Proof.
  revert h. induction files as [|[df name] rest IH]; intros h ND OK.
  - exists h. split; [done|]. split; [|done].
    intros df name I. by apply elem_of_nil in I.
  - apply NoDup_cons in ND as [Fresh ND].
    destruct (OK df name ltac:(by left)) as (d & d' & E & F).
    assert (forall r n, (r, n) ∈ rest -> r <> df) as Other.
    { intros r n I ->. apply Fresh. apply list_elem_of_fmap. by exists (df, n). }
    destruct (IH (<[df := d']> h) ND) as (h' & R & Each & Frame).
    { intros r n I. destruct (OK r n ltac:(by right)) as (x & x' & Ex & Fx).
      exists x, x'. by rewrite lookup_insert_ne by (symmetry; by eapply Other). }
    exists h'. rewrite load_uploads_cons, (normalize_df_run _ _ _ _ E), F, R.
    split; [done|]. split.
    + intros r n [[= -> ->]|I]%elem_of_cons.
      * exists d, d'. rewrite (Frame df Fresh), lookup_insert_eq. done.
      * destruct (Each r n I) as (x & x' & Ex & Fx & Hx).
        rewrite lookup_insert_ne in Ex by (symmetry; by eapply Other). eauto.
    + intros r N. apply not_elem_of_cons in N as [N1 N2].
      rewrite (Frame r N2). by apply lookup_insert_ne.
Qed.

Lemma two_refs_distinct : NoDup [0%nat; 1%nat].
Proof.
  apply NoDup_cons. split; [by intros ?%list_elem_of_singleton|].
  apply NoDup_singleton.
Qed.

Lemma elem_of_two {A B} (x : A * B) a1 b1 a2 b2 :
  x ∈ [(a1, b1); (a2, b2)] ->
  (x.1 = a1 /\ x.2 = b1) \/ (x.1 = a2 /\ x.2 = b2).
Proof.
  intros [->|[->|I]%elem_of_cons]%elem_of_cons; [by left|by right|].
  by apply elem_of_nil in I.
Qed.

Lemma load_uploads_returns_witness :
  exists h',
    load_uploads [(0%nat, sample_filename); (1%nat, lit "wells_2020.csv")]
      two_uploads = Returns [0%nat; 1%nat] h' /\
    (forall df name,
       (df, name) ∈ [(0%nat, sample_filename); (1%nat, lit "wells_2020.csv")] ->
       exists d d', two_uploads !! df = Some d /\
                    normalize_frame d name = inr d' /\ h' !! df = Some d') /\
    (forall r, r ∉ [0%nat; 1%nat] -> h' !! r = two_uploads !! r).
Proof.
  apply (load_uploads_returns
           [(0%nat, sample_filename); (1%nat, lit "wells_2020.csv")]
           two_uploads).
  - exact two_refs_distinct.
  - intros df name I. apply elem_of_two in I. cbn [fst snd] in I.
    destruct I as [[-> ->]|[-> ->]].
    + exists sample_frame, (normalized_or_same sample_frame sample_filename).
      split; vm_compute; reflexivity.
    + exists latitude_only_frame,
        (normalized_or_same latitude_only_frame (lit "wells_2020.csv")).
      split; vm_compute; reflexivity.
Defined.

(** X15: One file that does not normalize stops the loop: it raises, and no
    list of frames is there for the panels. *)
Theorem load_uploads_raises files h df name d e :
  NoDup files.*1 ->
  (forall r n, (r, n) ∈ files -> is_Some (h !! r)) ->
  (df, name) ∈ files -> h !! df = Some d ->
  normalize_frame d name = inl e ->
  exists e', load_uploads files h = Raises e'.
Proof.
  revert h. induction files as [|[r n] rest IH]; intros h ND Live I E F.
  - by apply elem_of_nil in I.
  - apply NoDup_cons in ND as [Fresh ND]. rewrite load_uploads_cons.
    destruct (Live r n ltac:(by left)) as [x Ex].
    rewrite (normalize_df_run _ _ _ _ Ex).
    destruct (normalize_frame x n) as [e0|x'] eqn:Fx; [eauto|].
    apply elem_of_cons in I as [[= <- <-]|I]; [congruence|].
    assert (df <> r) as N.
    { intros ->. apply Fresh. apply list_elem_of_fmap. by exists (r, name). }
    assert (forall r' n', (r', n') ∈ rest -> is_Some (<[r := x']> h !! r'))
      as Live'.
    { intros r' n' I'. destruct (decide (r' = r)) as [->|N'].
      - rewrite lookup_insert_eq. eauto.
      - rewrite lookup_insert_ne by done. apply (Live r' n'). by right. }
    assert (<[r := x']> h !! df = Some d) as E'
      by (by rewrite lookup_insert_ne).
    destruct (IH (<[r := x']> h) ND Live' I E' F) as [e' ->]. eauto.
Qed.

Lemma load_uploads_raises_witness :
  exists e',
    load_uploads [(0%nat, sample_filename); (1%nat, superscript_filename)]
      two_uploads = Raises e'.
Proof.
  apply (load_uploads_raises
           [(0%nat, sample_filename); (1%nat, superscript_filename)]
           two_uploads 1%nat superscript_filename latitude_only_frame
           ValueError).
  - exact two_refs_distinct.
  - intros r n I. apply elem_of_two in I. cbn [fst snd] in I.
    destruct I as [[-> ->]|[-> ->]].
    + exists sample_frame. vm_compute. reflexivity.
    + exists latitude_only_frame. vm_compute. reflexivity.
  - apply elem_of_cons. right. apply elem_of_cons. by left.
  - vm_compute. reflexivity.
  - vm_compute. reflexivity.
Defined.
